(** * SemSchoFetch: forward-citation harvesting from the Semantic Scholar graph

    A shallow embedding of [SemScho_forwardCitationFetch.py] (class
    [SemanticScholarCitationScraper]) and the properties its specification
    states about identifier resolution, pagination, throttling and record
    flattening.

    Conventions of the embedding.
    - A Python [str] is a [string]; one character of the model stands for one
      code point, so [len] is [String.length] and [s[:n]] keeps the first [n]
      characters.
    - The values decoded by [response.json()] are the type [json] below; a
      [dict] is an association list in document order, read with the first
      binding of a key.
    - An expression that may raise evaluates to [py A]: a value or the
      exception.
    - The remote service is scripted: the i-th call of [requests.get] receives
      the i-th element of a list of [response]s.  Every function that talks to
      the service returns a [run]: what it printed, requested and slept, its
      outcome, and the responses it did not consume.
    - The interpreter's bound on the depth of recursion is a parameter,
      [frames], of the one method that recurses and of its callers. *)

From Stdlib Require Import String Ascii List ZArith QArith Lia Bool Arith.
From Stdlib Require Import Sorted.
Import ListNotations.

Local Open Scope string_scope.
Local Open Scope list_scope.
Local Open Scope Z_scope.
Set Warnings "-register-all".

(** ** Python values and exceptions *)

Inductive json : Type :=
| JNull
| JBool (b : bool)
| JInt (n : Z)
| JFloat (q : Q)
| JStr (s : string)
| JList (l : list json)
| JDict (d : list (string * json)).

Inductive exn : Type :=
| Timeout            (* requests.exceptions.Timeout *)
| ConnectionError    (* any other exception raised by requests.get *)
| JSONDecodeError    (* response.json() on a body that is not JSON *)
| AttributeError
| TypeError
| KeyError
| DictSliceError     (* d[:n] on a dict: TypeError up to Python 3.11,
                        KeyError from Python 3.12 on *)
| RecursionError.

Inductive py (A : Type) : Type :=
| Ok (a : A)
| Err (e : exn).
Arguments Ok {A} a.
Arguments Err {A} e.

Definition bind {A B} (m : py A) (f : A -> py B) : py B :=
  match m with
  | Ok a => f a
  | Err e => Err e
  end.

Notation "x <- m ;; k" := (bind m (fun x => k))
  (at level 61, m at next level, right associativity).

(** ** The built-in operations the scraper uses *)

Module Py.

(** [bool(v)] *)
Definition truthy (v : json) : bool :=
  match v with
  | JNull => false
  | JBool b => b
  | JInt n => negb (n =? 0)
  | JFloat q => negb (Qeq_bool q 0)
  | JStr s => negb (String.eqb s "")
  | JList l => match l with [] => false | _ => true end
  | JDict d => match d with [] => false | _ => true end
  end.

(** first binding of [k] in a dict *)
Fixpoint lookup (k : string) (d : list (string * json)) : option json :=
  match d with
  | [] => None
  | (k', v) :: d' => if String.eqb k k' then Some v else lookup k d'
  end.

(** [v.get(k, dflt)]: only a dict has the method *)
Definition get (v : json) (k : string) (dflt : json) : py json :=
  match v with
  | JDict d => Ok (match lookup k d with Some x => x | None => dflt end)
  | _ => Err AttributeError
  end.

(** [v[k]] for a string key, on the dict the resolver returned *)
Definition getitem (v : json) (k : string) : py json :=
  match v with
  | JDict d => match lookup k d with Some x => Ok x | None => Err KeyError end
  | _ => Err TypeError
  end.

(** [a or b] *)
Definition or_else (a b : json) : json := if truthy a then a else b.

Fixpoint chars (s : string) : list json :=
  match s with
  | EmptyString => []
  | String c s' => JStr (String c EmptyString) :: chars s'
  end.

(** the elements a [for] loop, [list.extend] or [str.join] draws from [v] *)
Definition iter (v : json) : py (list json) :=
  match v with
  | JList l => Ok l
  | JStr s => Ok (chars s)
  | JDict d => Ok (map (fun kv => JStr (fst kv)) d)
  | _ => Err TypeError
  end.

(** [len(v)] *)
Definition len (v : json) : py nat :=
  match v with
  | JList l => Ok (List.length l)
  | JStr s => Ok (String.length s)
  | JDict d => Ok (List.length d)
  | _ => Err TypeError
  end.

Fixpoint take (n : nat) (s : string) : string :=
  match n, s with
  | S n', String c s' => String c (take n' s')
  | _, _ => EmptyString
  end.

(** [v[:n]]; slicing a dict raises an exception whose class depends on the
    version of Python ([DictSliceError]) *)
Definition slice_to (n : nat) (v : json) : py json :=
  match v with
  | JStr s => Ok (JStr (take n s))
  | JList l => Ok (JList (firstn n l))
  | JDict _ => Err DictSliceError
  | _ => Err TypeError
  end.

(** [a + b] where [b] is a str *)
Definition add_str (a : json) (b : string) : py json :=
  match a with
  | JStr s => Ok (JStr (s ++ b))
  | _ => Err TypeError
  end.

Fixpoint strs (l : list json) : py (list string) :=
  match l with
  | [] => Ok []
  | JStr s :: l' => t <- strs l' ;; Ok (s :: t)
  | _ :: _ => Err TypeError
  end.

Fixpoint concat_with (sep : string) (l : list string) : string :=
  match l with
  | [] => ""
  | [s] => s
  | s :: l' => s ++ sep ++ concat_with sep l'
  end.

(** [sep.join(v)] *)
Definition join (sep : string) (v : json) : py json :=
  l <- iter v ;; ss <- strs l ;; Ok (JStr (concat_with sep ss)).

(** [s.replace(old, '')]: the occurrences of [old] are found from the left
    and do not overlap; [skip] counts the characters of the occurrence being
    dropped. *)
Fixpoint remove_from (old : string) (skip : nat) (s : string) : string :=
  match s with
  | EmptyString => EmptyString
  | String c s' =>
      match skip with
      | S k => remove_from old k s'
      | O => if String.prefix old s
             then remove_from old (Nat.pred (String.length old)) s'
             else String c (remove_from old O s')
      end
  end.

Definition remove (old s : string) : string :=
  match old with
  | EmptyString => s
  | _ => remove_from old O s
  end.

(** the characters [str.strip()] removes, among the first 256 code points *)
Definition is_space (c : ascii) : bool :=
  let n := nat_of_ascii c in
  ((9 <=? n) && (n <=? 13) || (28 <=? n) && (n <=? 32)
   || (n =? 133) || (n =? 160))%nat.

Fixpoint lstrip (s : string) : string :=
  match s with
  | EmptyString => EmptyString
  | String c s' => if is_space c then lstrip s' else s
  end.

Fixpoint rstrip (s : string) : string :=
  match s with
  | EmptyString => EmptyString
  | String c s' =>
      match rstrip s' with
      | EmptyString => if is_space c then EmptyString else String c EmptyString
      | r => String c r
      end
  end.

Definition strip (s : string) : string := rstrip (lstrip s).

End Py.

(** ** The service, and what a call leaves behind *)

(** A piece of an f-string: literal text, or an interpolated value. *)
Inductive fpart : Type :=
| Lit (s : string)
| Fmt (v : json).

Record request : Type := mk_request {
  url : list fpart;
  req_headers : list (string * string);
  params : list (string * json);
  timeout : Z
}.

(** What [requests.get] does: raise, or answer with a status code and a body
    whose [.json()] decodes or raises. *)
Inductive response : Type :=
| Raises (e : exn)
| Http (status_code : Z) (body : py json).

(** The [print] statements of the class, by source line. *)
Inductive message : Type :=
| FoundPaper (title60 : json)                      (* line 35 *)
| PaperNotFound (clean_doi : string)               (* line 38 *)
| RateLimitWaitingLonger                           (* line 41 *)
| ApiError (clean_doi : string) (code : Z)         (* line 45 *)
| TimeoutForDoi (clean_doi : string)               (* line 49 *)
| ExceptionForDoi (clean_doi : string) (e : exn)   (* line 52 *)
| Retrieving                                       (* line 65 *)
| RetrievedSoFar (n : nat)                         (* line 81 *)
| RateLimitWaiting                                 (* line 91 *)
| ErrorGettingCitations (code : Z)                 (* line 96 *)
| TimeoutGettingCitations                          (* line 100 *)
| ExceptionGettingCitations (e : exn)              (* line 103 *)
| ProcessingDoi (i n : nat) (doi : string)         (* line 114 *)
| FoundCitations (n : nat) (original_title : json) (* line 125 *).

Inductive event : Type :=
| Request (r : request)
| Sleep (seconds : Q)
| Print (m : message).

(** [outcome = None]: the script of responses ended while the call was still
    waiting for one, so the call has not returned. *)
Record run (A : Type) : Type := mk_run {
  events : list event;
  outcome : option A;
  rest : list response
}.
Arguments mk_run {A} _ _ _.
Arguments events {A} _.
Arguments outcome {A} _.
Arguments rest {A} _.

Definition returns {A} (a : A) (world : list response) : run A :=
  mk_run [] (Some a) world.

Definition starved {A} : run A := mk_run [] None [].

Definition after {A} (es : list event) (r : run A) : run A :=
  mk_run (es ++ events r) (outcome r) (rest r).

Fixpoint requests_of (es : list event) : list request :=
  match es with
  | [] => []
  | Request r :: es' => r :: requests_of es'
  | _ :: es' => requests_of es'
  end.

Fixpoint sleeps_of (es : list event) : list Q :=
  match es with
  | [] => []
  | Sleep d :: es' => d :: sleeps_of es'
  | _ :: es' => sleeps_of es'
  end.

(** ** The scraper *)

Record scraper : Type := mk_scraper {
  base_url : string;
  headers : list (string * string);
  delay : Q;
  has_api_key : bool
}.

(** [__init__]: [if api_key] is false for [None] and for the empty string. *)
Definition init (api_key : option string) : scraper :=
  let given := match api_key with
               | Some k => negb (String.eqb k "")
               | None => false
               end in
  mk_scraper
    "https://api.semanticscholar.org/graph/v1"
    (("User-Agent", "SemanticScholarCitationScraper/1.0")
       :: match api_key with
          | Some k => if given then [("x-api-key", k)] else []
          | None => []
          end)
    (if given then 0.31%Q else 3.1%Q)
    (match api_key with Some _ => true | None => false end).

Definition cooldown : Q := 60%Q.

(** *** get_paper_by_doi *)

Definition clean (doi : string) : string :=
  Py.strip (Py.remove "doi:" (Py.remove "DOI:" doi)).

Definition paper_request (self : scraper) (clean_doi : string) : request :=
  mk_request
    [Fmt (JStr (base_url self)); Lit "/paper/DOI:"; Fmt (JStr clean_doi)]
    (headers self)
    [("fields",
      JStr "paperId,corpusId,title,authors,year,citationCount,venue,externalIds")]
    30.

(** The two [except] clauses of the method: which message a caught exception
    prints. *)
Definition paper_except (clean_doi : string) (e : exn) : message :=
  match e with
  | Timeout => TimeoutForDoi clean_doi
  | _ => ExceptionForDoi clean_doi e
  end.

(** The retry of line 43 is a recursive call, and the interpreter bounds
    the depth of recursion: [frames] is the number of nested activations of
    the method it still allows.  When none is left the call of line 43
    raises [RecursionError]; the call sits inside the [try] of line 30, so
    line 51 catches it, prints it and the method returns [None]. *)
Fixpoint get_paper_by_doi (self : scraper) (frames : nat) (doi : string)
    (world : list response) {struct world} : run (option json) :=
  let clean_doi := clean doi in
  let req := Request (paper_request self clean_doi) in
  match world with
  | [] => after [req] starved
  | Raises e :: world' =>
      after [req; Print (paper_except clean_doi e)] (returns None world')
  | Http status_code body :: world' =>
      if status_code =? 200 then
        match (paper_data <- body ;;
               title <- Py.get paper_data "title" (JStr "Unknown") ;;
               title60 <- Py.slice_to 60 title ;;
               Ok (paper_data, title60)) with
        | Ok (paper_data, title60) =>
            after [req; Print (FoundPaper title60)]
                  (returns (Some paper_data) world')
        | Err e =>
            after [req; Print (paper_except clean_doi e)]
                  (returns None world')
        end
      else if status_code =? 404 then
        after [req; Print (PaperNotFound clean_doi)] (returns None world')
      else if status_code =? 429 then
        match frames with
        | S frames' =>
            after [req; Print RateLimitWaitingLonger; Sleep cooldown]
                  (get_paper_by_doi self frames' doi world')
        | O =>
            after [req; Print RateLimitWaitingLonger; Sleep cooldown;
                   Print (paper_except clean_doi RecursionError)]
                  (returns None world')
        end
      else
        after [req; Print (ApiError clean_doi status_code)]
              (returns None world')
  end.

(** *** get_forward_citations *)

Definition citations_request (self : scraper) (paper_id : json) (limit : Z)
    (offset : Z) : request :=
  mk_request
    [Fmt (JStr (base_url self)); Lit "/paper/"; Fmt paper_id; Lit "/citations"]
    (headers self)
    [("fields",
      JStr "title,authors,year,venue,citationCount,externalIds,abstract,publicationTypes");
     ("limit", JInt (Z.min limit 1000));
     ("offset", JInt offset)]
    30.

Definition citations_except (e : exn) : message :=
  match e with
  | Timeout => TimeoutGettingCitations
  | _ => ExceptionGettingCitations e
  end.

(** The [while True] loop of lines 67-106, one iteration per response.
    [offset] and [all_citations] are the loop's two variables. *)
Fixpoint get_forward_citations_loop (self : scraper) (paper_id : json)
    (limit : Z) (offset : Z) (all_citations : list json)
    (world : list response) : run (list json) :=
  let req := Request (citations_request self paper_id limit offset) in
  match world with
  | [] => after [req] starved
  | Raises e :: world' =>
      after [req; Print (citations_except e)] (returns all_citations world')
  | Http status_code body :: world' =>
      if status_code =? 200 then
        match (data <- body ;; Py.get data "data" (JList [])) with
        | Err e =>
            after [req; Print (citations_except e)]
                  (returns all_citations world')
        | Ok citations =>
            if negb (Py.truthy citations) then
              after [req] (returns all_citations world')
            else
              match Py.iter citations with
              | Err e =>
                  after [req; Print (citations_except e)]
                        (returns all_citations world')
              | Ok items =>
                  let all_citations' := (all_citations ++ items)%list in
                  let so_far :=
                    Print (RetrievedSoFar (List.length all_citations')) in
                  match Py.len citations with
                  | Err e =>
                      after [req; so_far; Print (citations_except e)]
                            (returns all_citations' world')
                  | Ok n =>
                      if (n <? 1000)%nat then
                        after [req; so_far] (returns all_citations' world')
                      else
                        after [req; so_far;
                               Sleep (delay self); Sleep (delay self)]
                              (get_forward_citations_loop self paper_id limit
                                 (offset + 1000) all_citations' world')
                  end
              end
        end
      else if status_code =? 429 then
        after [req; Print RateLimitWaiting; Sleep cooldown]
              (get_forward_citations_loop self paper_id limit offset
                 all_citations world')
      else
        after [req; Print (ErrorGettingCitations status_code)]
              (returns all_citations world')
  end.

Definition get_forward_citations (self : scraper) (paper_id : json)
    (limit : Z) (world : list response) : run (list json) :=
  after [Print Retrieving]
        (get_forward_citations_loop self paper_id limit 0 [] world).

(** *** process_dois *)

(** One row of the data frame: the dict [citation_data] of lines 137-153. *)
Record citation_row : Type := mk_row {
  original_doi : json;
  original_title : json;
  original_paper_id : json;
  original_corpus_id : json;
  citing_title : json;
  citing_authors : json;
  citing_year : json;
  citing_venue : json;
  citing_doi : json;
  citing_pubmed_id : json;
  citing_arxiv_id : json;
  citing_citation_count : json;
  citing_paper_id : json;
  citing_publication_types : json;
  citing_abstract : json
}.

Fixpoint map_py {A B} (f : A -> py B) (l : list A) : py (list B) :=
  match l with
  | [] => Ok []
  | a :: l' => b <- f a ;; t <- map_py f l' ;; Ok (b :: t)
  end.

(** [[author.get('name', '') for author in authors]] *)
Definition author_names_of (authors : json) : py (list json) :=
  items <- Py.iter authors ;;
  map_py (fun author => Py.get author "name" (JStr "")) items.

(** [citing_paper.get('abstract', '')[:500] + '...'
     if citing_paper.get('abstract') else ''] *)
Definition citing_abstract_of (citing_paper : json) : py json :=
  present <- Py.get citing_paper "abstract" JNull ;;
  if Py.truthy present then
    abstract <- Py.get citing_paper "abstract" (JStr "") ;;
    head <- Py.slice_to 500 abstract ;;
    Py.add_str head "..."
  else Ok (JStr "").

(** The body of the inner [for citation in citations] loop, lines 128-153:
    the flattening of one citation edge. *)
Definition citation_data (doi : string) (paper paper_id title : json)
    (citation : json) : py citation_row :=
  citing_paper <- Py.get citation "citingPaper" (JDict []) ;;
  authors <- Py.get citing_paper "authors" (JList []) ;;
  author_names <- author_names_of authors ;;
  ids <- Py.get citing_paper "externalIds" JNull ;;
  let external_ids := Py.or_else ids (JDict []) in
  the_doi <- Py.get external_ids "DOI" (JStr "") ;;
  pubmed_id <- Py.get external_ids "PubMed" (JStr "") ;;
  corpus_id <- Py.get paper "corpusId" (JStr "") ;;
  the_title <- Py.get citing_paper "title" (JStr "") ;;
  the_authors <- Py.join "; " (JList author_names) ;;
  year <- Py.get citing_paper "year" (JStr "") ;;
  venue <- Py.get citing_paper "venue" (JStr "") ;;
  arxiv_id <- Py.get external_ids "ArXiv" (JStr "") ;;
  citation_count <- Py.get citing_paper "citationCount" (JInt 0) ;;
  the_paper_id <- Py.get citing_paper "paperId" (JStr "") ;;
  types <- Py.get citing_paper "publicationTypes" JNull ;;
  publication_types <- Py.join "; " (Py.or_else types (JList [])) ;;
  abstract <- citing_abstract_of citing_paper ;;
  Ok (mk_row (JStr doi) title paper_id corpus_id the_title the_authors year
        venue the_doi pubmed_id arxiv_id citation_count the_paper_id
        publication_types abstract).

(** [if not paper]: the resolver returned [None] or an empty dict. *)
Definition resolved (paper : option json) : option json :=
  match paper with
  | Some p => if Py.truthy p then Some p else None
  | None => None
  end.

(** The body of the outer loop, lines 114-157, for the [i]-th of [n] DOIs;
    it returns the rows this DOI adds to [all_forward_citations].  Every
    call of the resolver starts at the same depth, with [frames] nested
    activations left. *)
Definition process_doi (self : scraper) (frames : nat) (i n : nat)
    (doi : string) (world : list response) : run (py (list citation_row)) :=
  let found := get_paper_by_doi self frames doi world in
  after (Print (ProcessingDoi (S i) n doi) :: events found)
    match outcome found with
    | None => starved
    | Some paper =>
        match resolved paper with
        | None => returns (Ok []) (rest found)
        | Some paper =>
            match (paper_id <- Py.getitem paper "paperId" ;;
                   title <- Py.get paper "title" (JStr "Unknown") ;;
                   Ok (paper_id, title)) with
            | Err e => returns (Err e) (rest found)
            | Ok (paper_id, title) =>
                let fetched :=
                  get_forward_citations self paper_id 1000 (rest found) in
                after (events fetched)
                  match outcome fetched with
                  | None => starved
                  | Some citations =>
                      after [Print (FoundCitations (List.length citations) title)]
                        match map_py (citation_data doi paper paper_id title)
                                citations with
                        | Err e => returns (Err e) (rest fetched)
                        | Ok rows =>
                            after [Sleep (delay self)]
                                  (returns (Ok rows) (rest fetched))
                        end
                  end
            end
        end
    end.

Fixpoint process_dois_loop (self : scraper) (frames : nat) (i n : nat)
    (dois : list string) (all_forward_citations : list citation_row)
    (world : list response) : run (py (list citation_row)) :=
  match dois with
  | [] => returns (Ok all_forward_citations) world
  | doi :: dois' =>
      let this := process_doi self frames i n doi world in
      after (events this)
        match outcome this with
        | None => starved
        | Some (Err e) => returns (Err e) (rest this)
        | Some (Ok rows) =>
            process_dois_loop self frames (S i) n dois'
              (all_forward_citations ++ rows)%list (rest this)
        end
  end.

(** The data frame is the list of its rows. *)
Definition process_dois (self : scraper) (frames : nat) (dois : list string)
    (world : list response) : run (py (list citation_row)) :=
  process_dois_loop self frames 0 (List.length dois) dois [] world.

(** *** main

    Of [main] only the title shown in the summary is modelled (line 197):
    [t[:50] + "..." if len(t) > 50 else t]. *)
Definition summary_title (original_title : json) : py json :=
  n <- Py.len original_title ;;
  if (50 <? n)%nat then
    head <- Py.slice_to 50 original_title ;; Py.add_str head "..."
  else Ok original_title.

(** ** Vocabulary of the properties *)

(** The response is a decoded page whose ['data'] is the list [items]. *)
Definition serves (r : response) (items : list json) : Prop :=
  exists data, r = Http 200 (Ok data)
               /\ Py.get data "data" (JList []) = Ok (JList items).

(** The service signals "too many requests". *)
Definition throttles (r : response) : Prop :=
  exists body, r = Http 429 body.

(** A transport fault: [requests.get] raised, or the status code is neither
    200 nor 429. *)
Definition faults (r : response) : Prop :=
  match r with
  | Raises _ => True
  | Http status_code _ => status_code <> 200 /\ status_code <> 429
  end.

Definition fault_message (r : response) : message :=
  match r with
  | Raises e => citations_except e
  | Http status_code _ => ErrorGettingCitations status_code
  end.

(** What [k] full pages in a row make the loop do: it asks for each of them
    and advances the offset by 1000 per page. *)
Fixpoint full_pages_events (self : scraper) (paper_id : json) (limit : Z)
    (offset : Z) (acc : list json) (pages : list (list json)) : list event :=
  match pages with
  | [] => []
  | items :: pages' =>
      [Request (citations_request self paper_id limit offset);
       Print (RetrievedSoFar (List.length (acc ++ items)));
       Sleep (delay self); Sleep (delay self)]
      ++ full_pages_events self paper_id limit (offset + 1000) (acc ++ items)
           pages'
  end.

(** A decoded page carrying [items], and an edge with nothing in it. *)
Definition page (items : list json) : response :=
  Http 200 (Ok (JDict [("data", JList items)])).

Definition bare_edge : json := JDict [].

(** A depth of recursion of the order the default limit of 1000 leaves to
    the resolver; the concrete runs below never come near it. *)
Definition usual_frames : nat := 900.

(** The first [n] responses of a service that answers forever. *)
Definition first_responses (service : nat -> response) (n : nat)
    : list response :=
  map service (seq 0 n).

(** What one throttled attempt of the resolver does. *)
Definition throttled_attempt (self : scraper) (doi : string) : list event :=
  [Request (paper_request self (clean doi)); Print RateLimitWaitingLonger;
   Sleep cooldown].

(** Following the specification's words ("a scheme prefix, case-insensitive"):
    [p] spells the DOI scheme in some letter-case. *)
Definition lower_ascii (c : ascii) : ascii :=
  let n := nat_of_ascii c in
  if ((65 <=? n) && (n <=? 90))%nat then ascii_of_nat (n + 32) else c.

Fixpoint lower (s : string) : string :=
  match s with
  | EmptyString => EmptyString
  | String c s' => String (lower_ascii c) (lower s')
  end.

Definition spells_doi_scheme (p : string) : bool := String.eqb (lower p) "doi:".

(** Following the specification's words: the identifier with only a leading
    scheme prefix removed. *)
Definition without_leading_scheme (s : string) : string :=
  if spells_doi_scheme (Py.take 4 s) then substring 4 (String.length s - 4) s
  else s.

(** *** Edges whose fields have the types of the data model

    In the data model a citing paper has [authors], a sequence of records
    with a [name]; [externalIds], a mapping; [publicationTypes], a sequence
    of strings; and [abstract], a text.  Every field may be missing;
    [externalIds], [publicationTypes] and [abstract] may also be null. *)

Definition is_str (v : json) : bool :=
  match v with JStr _ => true | _ => false end.

Definition author_ok (author : json) : bool :=
  match author with
  | JDict d => match Py.lookup "name" d with
               | None => true
               | Some v => is_str v
               end
  | _ => false
  end.

Definition authors_ok (v : json) : bool :=
  match v with JList l => forallb author_ok l | _ => false end.

Definition ids_ok (v : json) : bool :=
  match v with JNull | JDict _ => true | _ => false end.

Definition types_ok (v : json) : bool :=
  match v with JNull => true | JList l => forallb is_str l | _ => false end.

Definition abstract_ok (v : json) : bool :=
  match v with JNull | JStr _ => true | _ => false end.

Definition optional (check : json -> bool) (k : string)
    (d : list (string * json)) : bool :=
  match Py.lookup k d with None => true | Some v => check v end.

Definition citing_paper_ok (cp : list (string * json)) : bool :=
  optional authors_ok "authors" cp && optional ids_ok "externalIds" cp
  && optional types_ok "publicationTypes" cp
  && optional abstract_ok "abstract" cp.

(** The citing paper of an edge: the sub-record, or the empty record when
    the edge has none. *)
Definition citing_paper_of (citation : json) : option (list (string * json)) :=
  match citation with
  | JDict d => match Py.lookup "citingPaper" d with
               | None => Some []
               | Some (JDict cp) => Some cp
               | Some _ => None
               end
  | _ => None
  end.

(** The value of a field, or its default. *)
Definition field (k : string) (dflt : json) (d : list (string * json)) : json :=
  match Py.lookup k d with Some v => v | None => dflt end.

Definition text_of (v : json) : string :=
  match v with JStr s => s | _ => "" end.

Definition author_name (author : json) : string :=
  match author with
  | JDict d => text_of (field "name" (JStr "") d)
  | _ => ""
  end.

Definition items_of (v : json) : list json :=
  match v with JList l => l | _ => [] end.

Definition mapping_of (v : json) : list (string * json) :=
  match v with JDict d => d | _ => [] end.

Definition abstract_text (cp : list (string * json)) : string :=
  match field "abstract" JNull cp with
  | JStr EmptyString => ""
  | JStr s => Py.take 500 s ++ "..."
  | _ => ""
  end.

(** The row of a well-typed citing paper, field by field. *)
Definition flattened (doi : string) (paper : list (string * json))
    (paper_id title : json) (cp : list (string * json)) : citation_row :=
  let external_ids := mapping_of (field "externalIds" JNull cp) in
  mk_row (JStr doi) title paper_id
    (field "corpusId" (JStr "") paper)
    (field "title" (JStr "") cp)
    (JStr (Py.concat_with "; "
             (map author_name (items_of (field "authors" (JList []) cp)))))
    (field "year" (JStr "") cp)
    (field "venue" (JStr "") cp)
    (field "DOI" (JStr "") external_ids)
    (field "PubMed" (JStr "") external_ids)
    (field "ArXiv" (JStr "") external_ids)
    (field "citationCount" (JInt 0) cp)
    (field "paperId" (JStr "") cp)
    (JStr (Py.concat_with "; "
             (map text_of (items_of (field "publicationTypes" JNull cp)))))
    (JStr (abstract_text cp)).

(** The numbers of edges announced by the "Found n forward citations"
    messages, one message per document that resolved. *)
Fixpoint found_counts (es : list event) : list nat :=
  match es with
  | [] => []
  | Print (FoundCitations n _) :: es' => n :: found_counts es'
  | _ :: es' => found_counts es'
  end.

(** An abstract of 600 characters. *)
Definition long_abstract : string := string_of_list_ascii (repeat "a"%char 600).

(** *** Further vocabulary *)

(** The request carries the scraper's headers and the 30-second timeout. *)
Definition from_scraper (self : scraper) (r : request) : Prop :=
  req_headers r = headers self /\ timeout r = 30.

(** The values [v[:n]] accepts. *)
Definition sliceable (v : json) : bool :=
  match v with JStr _ | JList _ => true | _ => false end.

Definition offset_of (r : request) : option json :=
  Py.lookup "offset" (params r).

(** A status 200 from which no page can be read: the body does not decode,
    is not a dict, or its ['data'] is empty, null or not iterable. *)
Definition unreadable (r : response) : Prop :=
  exists body,
    r = Http 200 body
    /\ match body with
       | Err _ => True
       | Ok (JDict d) =>
           let citations := field "data" (JList []) d in
           Py.truthy citations = false \/ Py.iter citations = Err TypeError
       | Ok _ => True
       end.

(** What one throttled iteration of the pagination loop does. *)
Definition throttled_iteration (self : scraper) (paper_id : json) (limit : Z)
    (offset : Z) : list event :=
  [Request (citations_request self paper_id limit offset);
   Print RateLimitWaiting; Sleep cooldown].

Definition first_char (s : string) : option ascii := String.get 0 s.

Fixpoint last_char (s : string) : option ascii :=
  match s with
  | EmptyString => None
  | String c EmptyString => Some c
  | String _ s' => last_char s'
  end.

Definition is_blank (c : option ascii) : bool :=
  match c with Some c => Py.is_space c | None => false end.

(** The rows of [k] edges of one DOI, as far as [original_doi] goes. *)
Fixpoint grouped (dois : list string) (counts : list nat) : list json :=
  match dois, counts with
  | doi :: dois', k :: counts' => repeat (JStr doi) k ++ grouped dois' counts'
  | _, _ => []
  end.

(** ** Tactics *)

(** Case analysis on everything a run branches on. *)
Ltac split_cases :=
  repeat match goal with
         | |- context [if ?b then _ else _] => destruct b
         | |- context [match ?x with _ => _ end] => destruct x
         end.

(** Decide, character by character, whether a word is a prefix. *)
Ltac compare_characters :=
  repeat (cbn [append String.prefix];
          match goal with
          | |- context [ascii_dec ?x ?y] => destruct (ascii_dec x y); subst
          end);
  try reflexivity; try discriminate.

(** From [x <- m ;; k = Ok r]: every step returned a value. *)
Ltac bind_inversion H :=
  repeat match type of H with
         | bind ?m _ = Ok _ =>
             let v := fresh "v" in
             let E := fresh "E" in
             destruct m as [v|] eqn:E; cbn [bind] in H; [|discriminate H]
         end.

(** * Properties *)

(** ** Runs *)

Lemma after_events {A} (es : list event) (r : run A) :
  events (after es r) = (es ++ events r)%list.
Proof. reflexivity. Qed.

Lemma after_outcome {A} (es : list event) (r : run A) :
  outcome (after es r) = outcome r.
Proof. reflexivity. Qed.

Lemma after_rest {A} (es : list event) (r : run A) :
  rest (after es r) = rest r.
Proof. reflexivity. Qed.

Lemma after_after {A} (es1 es2 : list event) (r : run A) :
  after es1 (after es2 r) = after (es1 ++ es2) r.
Proof. unfold after; cbn. now rewrite app_assoc. Qed.

Lemma requests_of_app (es1 es2 : list event) :
  requests_of (es1 ++ es2) = (requests_of es1 ++ requests_of es2)%list.
Proof.
  induction es1 as [|e es1 IH]; [reflexivity|].
  destruct e; cbn; now rewrite IH.
Qed.

Lemma sleeps_of_app (es1 es2 : list event) :
  sleeps_of (es1 ++ es2) = (sleeps_of es1 ++ sleeps_of es2)%list.
Proof.
  induction es1 as [|e es1 IH]; [reflexivity|].
  destruct e; cbn; now rewrite IH.
Qed.

(** ** Pagination: one iteration of the loop, by kind of response *)

Section Pagination.

Variable self : scraper.
Variable paper_id : json.
Variable limit : Z.

Local Abbreviation loop := (get_forward_citations_loop self paper_id limit).
Local Abbreviation req offset :=
  (Request (citations_request self paper_id limit offset)).

Lemma loop_full_page offset acc r items world :
  serves r items -> (1000 <= List.length items)%nat ->
  loop offset acc (r :: world) =
  after [req offset; Print (RetrievedSoFar (List.length (acc ++ items)));
         Sleep (delay self); Sleep (delay self)]
        (loop (offset + 1000) (acc ++ items)%list world).
Proof.
  intros (data & -> & Hdata) Hlen.
  cbn [get_forward_citations_loop].
  change (200 =? 200) with true; cbv iota.
  cbn [bind]; rewrite Hdata.
  destruct items as [|item items]; [cbn in Hlen; lia|].
  cbn [Py.truthy negb Py.iter Py.len].
  destruct (Nat.ltb_spec (List.length (item :: items)) 1000); [lia|].
  reflexivity.
Qed.

Lemma loop_short_page offset acc r items world :
  serves r items -> items <> [] -> (List.length items < 1000)%nat ->
  loop offset acc (r :: world) =
  after [req offset; Print (RetrievedSoFar (List.length (acc ++ items)))]
        (returns (acc ++ items)%list world).
Proof.
  intros (data & -> & Hdata) Hne Hlen.
  cbn [get_forward_citations_loop].
  change (200 =? 200) with true; cbv iota.
  cbn [bind]; rewrite Hdata.
  destruct items as [|item items]; [congruence|].
  cbn [Py.truthy negb Py.iter Py.len].
  destruct (Nat.ltb_spec (List.length (item :: items)) 1000); [|lia].
  reflexivity.
Qed.

Lemma loop_empty_page offset acc r world :
  serves r [] ->
  loop offset acc (r :: world) = after [req offset] (returns acc world).
Proof.
  intros (data & -> & Hdata).
  cbn [get_forward_citations_loop].
  change (200 =? 200) with true; cbv iota.
  cbn [bind]; now rewrite Hdata.
Qed.

Lemma loop_throttled offset acc r world :
  throttles r ->
  loop offset acc (r :: world) =
  after [req offset; Print RateLimitWaiting; Sleep cooldown]
        (loop offset acc world).
Proof. intros (body & ->). reflexivity. Qed.

Lemma loop_fault offset acc r world :
  faults r ->
  loop offset acc (r :: world) =
  after [req offset; Print (fault_message r)] (returns acc world).
Proof.
  destruct r as [e|code body]; cbn [faults]; [reflexivity|].
  intros [H200 H429].
  cbn [get_forward_citations_loop fault_message].
  destruct (Z.eqb_spec code 200); [contradiction|].
  destruct (Z.eqb_spec code 429); [contradiction|].
  reflexivity.
Qed.

Lemma loop_full_pages rs : forall pages offset acc world,
  Forall2 serves rs pages ->
  Forall (fun items => (1000 <= List.length items)%nat) pages ->
  loop offset acc (rs ++ world) =
  after (full_pages_events self paper_id limit offset acc pages)
        (loop (offset + 1000 * Z.of_nat (List.length pages))
              (acc ++ concat pages)%list world).
Proof.
  induction rs as [|r rs IH]; intros pages offset acc world Hserve Hfull.
  - inversion Hserve; subst. cbn [List.length concat full_pages_events Z.of_nat app].
    rewrite Z.mul_0_r, Z.add_0_r, app_nil_r.
    destruct (loop offset acc world); reflexivity.
  - inversion Hserve as [|? items ? pages' Hr Hrs]; subst.
    inversion Hfull as [|? ? Hlen Hfull']; subst.
    cbn [app]. rewrite (loop_full_page _ _ _ items) by assumption.
    rewrite (IH pages') by assumption.
    rewrite after_after. cbn [full_pages_events concat List.length].
    rewrite <- app_assoc.
    replace (offset + 1000 + 1000 * Z.of_nat (List.length pages'))
      with (offset + 1000 * Z.of_nat (S (List.length pages'))) by lia.
    reflexivity.
Qed.

Lemma requests_of_full_pages pages : forall offset acc,
  List.length
    (requests_of (full_pages_events self paper_id limit offset acc pages))
  = List.length pages.
Proof.
  induction pages as [|items pages IH]; intros offset acc; [reflexivity|].
  cbn. now rewrite IH.
Qed.

Lemma loop_asks_first offset acc world :
  exists es, events (loop offset acc world) = req offset :: es.
Proof.
  destruct world as [|[e|code body] world]; cbn [get_forward_citations_loop];
    repeat match goal with
           | |- context [if ?b then _ else _] => destruct b
           | |- context [match ?x with _ => _ end] => destruct x
           end;
    eexists; reflexivity.
Qed.

Lemma serves_page items : serves (page items) items.
Proof. exists (JDict [("data", JList items)]). now split. Qed.

End Pagination.

(** Full pages followed by a short, non-empty page: the short page is the
    last one asked for, whatever follows it in the script. *)
Lemma pagination_stops_on_short_page self paper_id limit rs pages r last world :
  Forall2 serves rs pages ->
  Forall (fun items => (1000 <= List.length items)%nat) pages ->
  serves r last -> last <> [] -> (List.length last < 1000)%nat ->
  let fetched :=
    get_forward_citations self paper_id limit (rs ++ r :: world) in
  outcome fetched = Some (concat pages ++ last)%list
  /\ rest fetched = world
  /\ List.length (requests_of (events fetched)) = S (List.length pages).
Proof.
  intros Hrs Hfull Hr Hne Hlen fetched; subst fetched.
  unfold get_forward_citations.
  rewrite (loop_full_pages _ _ _ rs pages) by assumption.
  rewrite (loop_short_page _ _ _ _ _ _ last) by assumption.
  cbn [after events outcome rest returns].
  split; [reflexivity|split; [reflexivity|]].
  rewrite !requests_of_app, !length_app, requests_of_full_pages.
  cbn. lia.
Qed.

(** Full pages followed by an empty page. *)
Lemma pagination_stops_on_empty_page self paper_id limit rs pages r world :
  Forall2 serves rs pages ->
  Forall (fun items => (1000 <= List.length items)%nat) pages ->
  serves r [] ->
  let fetched :=
    get_forward_citations self paper_id limit (rs ++ r :: world) in
  outcome fetched = Some (concat pages)
  /\ rest fetched = world
  /\ List.length (requests_of (events fetched)) = S (List.length pages).
Proof.
  intros Hrs Hfull Hr fetched; subst fetched.
  unfold get_forward_citations.
  rewrite (loop_full_pages _ _ _ rs pages) by assumption.
  rewrite (loop_empty_page _ _ _ _ _ _) by assumption.
  cbn [after events outcome rest returns].
  split; [reflexivity|split; [reflexivity|]].
  rewrite !requests_of_app, !length_app, requests_of_full_pages.
  cbn. lia.
Qed.

(** With the default limit of 1000, pages of 1000, 1000 and 400 edges take
    three requests and give 2400 edges; pages of 1000 and 0 edges take two
    requests and give 1000 edges. *)
Lemma pages_1000_1000_400 self paper_id p1 p2 p3 world :
  List.length p1 = 1000%nat -> List.length p2 = 1000%nat ->
  List.length p3 = 400%nat ->
  let fetched :=
    get_forward_citations self paper_id 1000
      (page p1 :: page p2 :: page p3 :: world) in
  outcome fetched = Some (p1 ++ p2 ++ p3)%list
  /\ option_map (@List.length json) (outcome fetched) = Some 2400%nat
  /\ List.length (requests_of (events fetched)) = 3%nat
  /\ rest fetched = world.
Proof.
  intros H1 H2 H3.
  destruct (pagination_stops_on_short_page self paper_id 1000
              [page p1; page p2] [p1; p2] (page p3) p3 world)
    as (Hout & Hrest & Hreq).
  - repeat constructor; apply serves_page.
  - repeat constructor; lia.
  - apply serves_page.
  - intros ->; discriminate.
  - lia.
  - cbn [app concat] in *. rewrite app_nil_r in Hout.
    cbn zeta. rewrite Hout, <- app_assoc.
    split; [reflexivity|split; [|split; assumption]].
    cbn [option_map]. rewrite !length_app, H1, H2, H3. reflexivity.
Qed.

Lemma pages_1000_0 self paper_id p1 world :
  List.length p1 = 1000%nat ->
  let fetched :=
    get_forward_citations self paper_id 1000 (page p1 :: page [] :: world) in
  outcome fetched = Some p1
  /\ List.length (requests_of (events fetched)) = 2%nat
  /\ rest fetched = world.
Proof.
  intros H1.
  destruct (pagination_stops_on_empty_page self paper_id 1000
              [page p1] [p1] (page []) world) as (Hout & Hrest & Hreq).
  - repeat constructor; apply serves_page.
  - repeat constructor; lia.
  - apply serves_page.
  - cbn [app concat] in *. rewrite app_nil_r in Hout. now repeat split.
Qed.

(** C1, at a limit below 1000.  The page size sent to the service is
    [min(limit, 1000)], but the loop compares the length of the page with the
    constant 1000: with [limit = 500] and pages of 500, 500 and 200 edges, the
    first page (500 edges, a full page of the requested size) already ends
    the loop.  One request is made, 500 edges are returned and the two other
    pages are never asked for. *)
Theorem limit_500_stops_after_first_page self paper_id :
  let world := [page (repeat bare_edge 500); page (repeat bare_edge 500);
                page (repeat bare_edge 200)] in
  let fetched := get_forward_citations self paper_id 500 world in
  Py.lookup "limit" (params (citations_request self paper_id 500 0))
    = Some (JInt 500)
  /\ requests_of (events fetched) = [citations_request self paper_id 500 0]
  /\ outcome fetched = Some (repeat bare_edge 500)
  /\ rest fetched = [page (repeat bare_edge 500); page (repeat bare_edge 200)].
Proof.
  intros world fetched; subst world fetched.
  unfold get_forward_citations.
  rewrite (loop_short_page _ _ _ _ _ _ (repeat bare_edge 500)).
  - repeat split.
  - apply serves_page.
  - discriminate.
  - rewrite repeat_length. apply Nat.ltb_lt. reflexivity.
Qed.

(** C5.  After [k] pages that keep the loop going, a transport fault on the
    next request (an exception raised by the call, or a status code other than
    200 and 429) ends the pagination: the call returns, without raising,
    exactly the edges of those [k] pages, having made [k + 1] requests.  With
    [k = 1] a fault on the second request returns the first page's edges. *)
Theorem fault_returns_accumulated_pages self paper_id limit rs pages fault world :
  Forall2 serves rs pages ->
  Forall (fun items => (1000 <= List.length items)%nat) pages ->
  faults fault ->
  let fetched :=
    get_forward_citations self paper_id limit (rs ++ fault :: world) in
  outcome fetched = Some (concat pages)
  /\ rest fetched = world
  /\ List.length (requests_of (events fetched)) = S (List.length pages).
Proof.
  intros Hrs Hfull Hfault fetched; subst fetched.
  unfold get_forward_citations.
  rewrite (loop_full_pages _ _ _ rs pages) by assumption.
  rewrite loop_fault by assumption.
  cbn [after events outcome rest returns].
  split; [reflexivity|split; [reflexivity|]].
  rewrite !requests_of_app, !length_app, requests_of_full_pages.
  cbn. lia.
Qed.

Lemma fault_returns_accumulated_pages_witness :
  let first := repeat bare_edge 1000 in
  let fetched :=
    get_forward_citations (init None) (JStr "p") 1000
      ([page first] ++ [Raises Timeout]) in
  faults (Raises Timeout)
  /\ outcome fetched = Some (concat [first])
  /\ rest fetched = []
  /\ List.length (requests_of (events fetched)) = 2%nat.
Proof.
  split; [exact I|].
  apply (fault_returns_accumulated_pages (init None) (JStr "p") 1000
           [page (repeat bare_edge 1000)] [repeat bare_edge 1000]
           (Raises Timeout) []).
  - constructor; [apply serves_page|constructor].
  - constructor; [apply Nat.leb_le; reflexivity|constructor].
  - exact I.
Defined.

(** C6.  A throttling signal in place of the page at some offset: the loop
    does not break and does not move the offset.  Compared with the run that
    is not throttled, the run has the same outcome and one more request, at
    that same offset, followed by one cooldown wait; everything else is
    unchanged. *)
Theorem throttled_page_is_asked_again
    self paper_id limit rs pages throttle world :
  Forall2 serves rs pages ->
  Forall (fun items => (1000 <= List.length items)%nat) pages ->
  throttles throttle ->
  let plain := get_forward_citations self paper_id limit (rs ++ world) in
  let throttled :=
    get_forward_citations self paper_id limit (rs ++ throttle :: world) in
  let again :=
    Request (citations_request self paper_id limit
               (1000 * Z.of_nat (List.length pages))) in
  outcome throttled = outcome plain
  /\ rest throttled = rest plain
  /\ (exists before afterwards,
        events plain = (before ++ again :: afterwards)%list
        /\ events throttled =
           (before ++ again :: Print RateLimitWaiting :: Sleep cooldown
                   :: again :: afterwards)%list
        /\ List.length (requests_of before) = List.length pages)
  /\ List.length (requests_of (events throttled))
     = S (List.length (requests_of (events plain)))
  /\ List.length (sleeps_of (events throttled))
     = S (List.length (sleeps_of (events plain))).
Proof.
  intros Hrs Hfull Hthrottle plain throttled again.
  subst plain throttled again.
  unfold get_forward_citations.
  rewrite !(loop_full_pages _ _ _ rs pages) by assumption.
  rewrite loop_throttled by assumption.
  cbn [app Z.add].
  set (before := full_pages_events self paper_id limit 0 [] pages).
  destruct (loop_asks_first self paper_id limit
              (1000 * Z.of_nat (List.length pages)) (concat pages) world)
    as [afterwards Hloop].
  set (continued := get_forward_citations_loop self paper_id limit
                      (1000 * Z.of_nat (List.length pages)) (concat pages)
                      world) in *.
  cbn [after events outcome rest]. rewrite Hloop.
  split; [reflexivity|split; [reflexivity|split; [|split]]].
  - exists (Print Retrieving :: before), afterwards.
    split; [reflexivity|split].
    + reflexivity.
    + cbn [requests_of]. apply requests_of_full_pages.
  - cbn [requests_of app]. rewrite !requests_of_app, !length_app. cbn. lia.
  - cbn [sleeps_of app]. rewrite !sleeps_of_app, !length_app. cbn. lia.
Qed.

Lemma throttled_page_is_asked_again_witness :
  let first := repeat bare_edge 1000 in
  let second := [bare_edge; bare_edge] in
  let plain :=
    get_forward_citations (init None) (JStr "p") 1000
      ([page first] ++ [page second]) in
  let throttled :=
    get_forward_citations (init None) (JStr "p") 1000
      ([page first] ++ Http 429 (Ok JNull) :: [page second]) in
  outcome throttled = outcome plain
  /\ List.length (requests_of (events throttled))
     = S (List.length (requests_of (events plain))).
Proof.
  destruct (throttled_page_is_asked_again (init None) (JStr "p") 1000
              [page (repeat bare_edge 1000)] [repeat bare_edge 1000]
              (Http 429 (Ok JNull)) [page [bare_edge; bare_edge]])
    as (Hout & _ & _ & Hreq & _).
  - constructor; [apply serves_page|constructor].
  - constructor; [apply Nat.leb_le; reflexivity|constructor].
  - exists (Ok JNull). reflexivity.
  - split; [exact Hout|exact Hreq].
Defined.

(** ** The resolver *)

Section Resolver.

Variable self : scraper.

Lemma resolver_throttled frames doi r world :
  throttles r ->
  get_paper_by_doi self (S frames) doi (r :: world) =
  after (throttled_attempt self doi) (get_paper_by_doi self frames doi world).
Proof. intros (body & ->). reflexivity. Qed.


(** A response that does not throttle ends the call: one request, no wait,
    and an outcome that depends on that response alone. *)
Lemma resolver_answered frames doi r world :
  ~ throttles r ->
  let call := get_paper_by_doi self frames doi (r :: world) in
  let alone := get_paper_by_doi self frames doi [r] in
  events call = events alone
  /\ outcome call = outcome alone
  /\ rest call = world
  /\ (exists paper, outcome call = Some paper)
  /\ requests_of (events call) = [paper_request self (clean doi)]
  /\ sleeps_of (events call) = [].
Proof.
  intros Hr. destruct r as [e|code body]; cbn [get_paper_by_doi].
  - repeat split; now eexists.
  - destruct (Z.eqb_spec code 200).
    + destruct (paper_data <- body ;;
                title <- Py.get paper_data "title" (JStr "Unknown") ;;
                title60 <- Py.slice_to 60 title ;;
                Ok (paper_data, title60)) as [[paper_data title60]|e'].
      * repeat split; now eexists.
      * repeat split; now eexists.
    + destruct (Z.eqb_spec code 404).
      * repeat split; now eexists.
      * destruct (Z.eqb_spec code 429).
        -- exfalso. apply Hr. subst. now exists body.
        -- repeat split; now eexists.
Qed.

Lemma resolver_depends_on_clean doi doi' :
  clean doi = clean doi' ->
  forall frames world,
    get_paper_by_doi self frames doi world
    = get_paper_by_doi self frames doi' world.
Proof.
  intros Hclean frames world. revert frames.
  induction world as [|r world IH]; intros frames;
    cbn [get_paper_by_doi]; rewrite Hclean.
  - reflexivity.
  - destruct r as [e|code body]; [reflexivity|].
    destruct frames as [|frames]; [reflexivity|]. now rewrite IH.
Qed.

Lemma resolver_throttled_run doi pre : forall frames world,
  Forall throttles pre ->
  get_paper_by_doi self (List.length pre + frames) doi (pre ++ world) =
  after (concat (repeat (throttled_attempt self doi) (List.length pre)))
        (get_paper_by_doi self frames doi world).
Proof.
  induction pre as [|r pre IH]; intros frames world Hpre.
  - cbn. now destruct (get_paper_by_doi self frames doi world).
  - inversion Hpre as [|? ? Hr Hpre']; subst.
    cbn [app List.length repeat concat Nat.add].
    rewrite resolver_throttled by assumption.
    rewrite IH by assumption. now rewrite after_after.
Qed.

Lemma requests_of_throttled_attempts doi n :
  requests_of (concat (repeat (throttled_attempt self doi) n))
  = repeat (paper_request self (clean doi)) n.
Proof. induction n as [|n IH]; [reflexivity|]. cbn. now rewrite IH. Qed.

Lemma sleeps_of_throttled_attempts doi n :
  sleeps_of (concat (repeat (throttled_attempt self doi) n))
  = repeat cooldown n.
Proof. induction n as [|n IH]; [reflexivity|]. cbn. now rewrite IH. Qed.


End Resolver.

Lemma first_responses_throttle service n :
  (forall i, throttles (service i)) ->
  Forall throttles (first_responses service n).
Proof.
  intros Hall. unfold first_responses.
  apply Forall_forall. intros r Hin.
  apply in_map_iff in Hin. destruct Hin as (i & <- & _). apply Hall.
Qed.


(** Within the depth the interpreter allows, the resolver does what is
    expected of it: after [n] throttling signals it has waited the cooldown
    [n] times, sent the same request [n + 1] times, and it returns with the
    outcome of the first response that does not throttle. *)
Lemma resolver_retries_within_depth self frames doi pre r world :
  Forall throttles pre -> ~ throttles r ->
  let n := List.length pre in
  let call := get_paper_by_doi self (n + frames) doi (pre ++ r :: world) in
  (exists paper, outcome call = Some paper)
  /\ outcome call = outcome (get_paper_by_doi self frames doi [r])
  /\ rest call = world
  /\ sleeps_of (events call) = repeat cooldown n
  /\ requests_of (events call)
     = repeat (paper_request self (clean doi)) (S n).
Proof.
  intros Hpre Hr n call; subst n call.
  rewrite resolver_throttled_run by assumption.
  destruct (resolver_answered self frames doi r world Hr)
    as (Hev & Hout & Hrest & Hret & Hreq & Hsl).
  cbn [after events outcome rest].
  repeat split; try assumption.
  - now rewrite sleeps_of_app, sleeps_of_throttled_attempts, Hsl, app_nil_r.
  - rewrite requests_of_app, requests_of_throttled_attempts, Hreq.
    now rewrite <- repeat_cons.
Qed.


(** ** Cleaning the identifier *)

Local Open Scope string_scope.

Lemma prefix_too_short old : forall s,
  (String.length s < String.length old)%nat -> String.prefix old s = false.
Proof.
  induction old as [|c old IH]; intros s Hlen; [cbn in Hlen; lia|].
  destruct s as [|d s]; [reflexivity|].
  cbn [String.prefix]. destruct (ascii_dec c d); [|reflexivity].
  apply IH. cbn in Hlen. lia.
Qed.

Lemma prefix_of_append old : forall s t,
  (String.length old <= String.length s)%nat ->
  String.prefix old (s ++ t) = String.prefix old s.
Proof.
  induction old as [|c old IH]; intros s t Hlen.
  - now destruct s, t.
  - destruct s as [|d s]; [cbn in Hlen; lia|].
    cbn [append String.prefix]. destruct (ascii_dec c d); [|reflexivity].
    apply IH. cbn in Hlen. lia.
Qed.

Lemma prefix_of_itself old : forall t, String.prefix old (old ++ t) = true.
Proof.
  induction old as [|c old IH]; intros t; [now destruct t|].
  cbn [append String.prefix]. destruct (ascii_dec c c); [apply IH|congruence].
Qed.

Lemma remove_from_skips old x : forall t,
  Py.remove_from old (String.length x) (x ++ t) = Py.remove_from old 0 t.
Proof. induction x as [|c x IH]; intros t; [reflexivity|apply IH]. Qed.

Lemma remove_from_occurrence old t :
  old <> "" -> Py.remove_from old 0 (old ++ t) = Py.remove_from old 0 t.
Proof.
  destruct old as [|d old'] eqn:Hold; [congruence|]. intros _.
  cbn [append Py.remove_from].
  change (String d (old' ++ t)) with (String d old' ++ t).
  rewrite prefix_of_itself.
  cbn [String.length Nat.pred]. apply remove_from_skips.
Qed.

Lemma remove_is_remove_from old s :
  old <> "" -> Py.remove old s = Py.remove_from old 0 s.
Proof. destruct old; [congruence|reflexivity]. Qed.

Section Removal.

(** [old] is a word no occurrence of which can begin inside the text before
    another occurrence and run into it; ['DOI:'] and ['doi:'] are such words,
    their last character being their only colon. *)
Variable old : string.
Hypothesis old_not_empty : old <> "".
Hypothesis no_straddle : forall a b,
  (0 < String.length a < String.length old)%nat ->
  String.prefix old (a ++ old ++ b) = false.

Lemma remove_from_around a : forall k b,
  (k <= String.length a)%nat ->
  Py.remove_from old k (a ++ old ++ b)
  = Py.remove_from old k a ++ Py.remove_from old 0 b.
Proof.
  induction a as [|c a IH]; intros k b Hk.
  - assert (k = 0%nat) as -> by (cbn in Hk; lia).
    cbn [append Py.remove_from]. now apply remove_from_occurrence.
  - destruct k as [|k].
    + cbn [append Py.remove_from].
      change (String c (a ++ old ++ b)) with (String c a ++ old ++ b).
      destruct (Nat.le_gt_cases (String.length old) (String.length (String c a)))
        as [Hlong|Hshort].
      * rewrite prefix_of_append by assumption.
        destruct (String.prefix old (String c a)).
        -- apply IH. cbn in Hlong. lia.
        -- cbn [append]. f_equal. apply IH. lia.
      * rewrite no_straddle by (cbn [String.length] in *; lia).
        rewrite prefix_too_short by assumption.
        cbn [append]. f_equal. apply IH. lia.
    + cbn [append Py.remove_from]. apply IH. cbn in Hk. lia.
Qed.

Lemma remove_around a b :
  Py.remove old (a ++ old ++ b) = Py.remove old a ++ Py.remove old b.
Proof.
  rewrite !remove_is_remove_from by assumption.
  apply remove_from_around. lia.
Qed.

End Removal.

Lemma upper_DOI_no_straddle a b :
  (0 < String.length a < String.length "DOI:")%nat ->
  String.prefix "DOI:" (a ++ "DOI:" ++ b) = false.
Proof.
  destruct a as [|c1 [|c2 [|c3 [|c4 a]]]]; cbn [String.length]; intros Hlen;
    try lia; compare_characters.
Qed.

Lemma lower_doi_no_straddle a b :
  (0 < String.length a < String.length "doi:")%nat ->
  String.prefix "doi:" (a ++ "doi:" ++ b) = false.
Proof.
  destruct a as [|c1 [|c2 [|c3 [|c4 a]]]]; cbn [String.length]; intros Hlen;
    try lia; compare_characters.
Qed.

Lemma clean_upper_prefix s : clean ("DOI:" ++ s) = clean s.
Proof.
  unfold clean. f_equal. f_equal.
  change ("DOI:" ++ s) with ("" ++ "DOI:" ++ s).
  rewrite remove_around by (discriminate || apply upper_DOI_no_straddle).
  reflexivity.
Qed.

Lemma clean_lower_prefix s : clean ("doi:" ++ s) = clean s.
Proof.
  unfold clean. f_equal.
  assert (Py.remove "DOI:" ("doi:" ++ s) = "doi:" ++ Py.remove "DOI:" s) as ->.
  { unfold Py.remove. cbn [append Py.remove_from]. compare_characters. }
  change ("doi:" ++ Py.remove "DOI:" s)
    with ("" ++ "doi:" ++ Py.remove "DOI:" s).
  rewrite remove_around by (discriminate || apply lower_doi_no_straddle).
  reflexivity.
Qed.

(** C2, as the code has it: a prefix spelled exactly ['DOI:'] or ['doi:'] is
    removed before the query is built, so the identifier with and without it
    make the resolver do the same thing on every script of responses: the same
    requests, the same messages, the same outcome.  Other letter-cases of the
    prefix are outside this statement. *)
Theorem exact_scheme_prefix_is_stripped self frames s world :
  get_paper_by_doi self frames ("DOI:" ++ s) world = get_paper_by_doi self frames s world
  /\ get_paper_by_doi self frames ("doi:" ++ s) world = get_paper_by_doi self frames s world
  /\ paper_request self (clean ("DOI:" ++ s)) = paper_request self (clean s)
  /\ paper_request self (clean ("doi:" ++ s)) = paper_request self (clean s)
  /\ get_paper_by_doi self frames "DOI:10.1/x" world
     = get_paper_by_doi self frames "10.1/x" world.
Proof.
  repeat split.
  - apply resolver_depends_on_clean, clean_upper_prefix.
  - apply resolver_depends_on_clean, clean_lower_prefix.
  - now rewrite clean_upper_prefix.
  - now rewrite clean_lower_prefix.
  - now apply resolver_depends_on_clean.
Qed.

(** C2 fails for a prefix in mixed case: ['Doi:'] spells the scheme, yet it
    stays in the identifier and the request differs from the one for the bare
    identifier. *)
Lemma mixed_case_scheme_is_not_stripped :
  spells_doi_scheme "Doi:" = true
  /\ clean "Doi:10.1/x" = "Doi:10.1/x"
  /\ clean "10.1/x" = "10.1/x"
  /\ requests_of (events (get_paper_by_doi (init None) usual_frames "Doi:10.1/x" []))
     <> requests_of (events (get_paper_by_doi (init None) usual_frames "10.1/x" [])).
Proof.
  repeat split. cbn. intros Heq. discriminate Heq.
Qed.

(** C9.  Cleaning is two removals and a strip; each removal deletes the word
    wherever it occurs, not only at the front, so an identifier with the word
    in its interior is queried differently from the identifier with only a
    leading prefix removed. *)
Theorem cleaning_removes_interior_occurrences :
  (forall doi,
      clean doi = Py.strip (Py.remove "doi:" (Py.remove "DOI:" doi)))
  /\ (forall a b,
         Py.remove "DOI:" (a ++ "DOI:" ++ b)
         = Py.remove "DOI:" a ++ Py.remove "DOI:" b)
  /\ (forall a b,
         Py.remove "doi:" (a ++ "doi:" ++ b)
         = Py.remove "doi:" a ++ Py.remove "doi:" b)
  /\ clean "10.1/aDOI:b" = "10.1/ab"
  /\ clean "10.1/adoi:b" = "10.1/ab"
  /\ clean "  doi:10.1/x " = "10.1/x"
  /\ without_leading_scheme "10.1/aDOI:b" = "10.1/aDOI:b"
  /\ (forall self,
         paper_request self (clean "10.1/aDOI:b")
         <> paper_request self (without_leading_scheme "10.1/aDOI:b")).
Proof.
  repeat split.
  - intros a b. apply remove_around;
      [discriminate|apply upper_DOI_no_straddle].
  - intros a b. apply remove_around;
      [discriminate|apply lower_doi_no_straddle].
  - intros self Heq. discriminate Heq.
Qed.

Local Open Scope list_scope.

(** ** Flattening one edge *)

Lemma get_of_dict d k dflt : Py.get (JDict d) k dflt = Ok (field k dflt d).
Proof. reflexivity. Qed.

Lemma optional_field check k dflt d :
  optional check k d = true -> check dflt = true ->
  check (field k dflt d) = true.
Proof. unfold optional, field. now destruct (Py.lookup k d). Qed.

Lemma strs_of_texts l :
  forallb is_str l = true -> Py.strs l = Ok (map text_of l).
Proof.
  induction l as [|v l IH]; [reflexivity|].
  cbn [forallb]. intros Hl. apply andb_prop in Hl as [Hv Hl].
  destruct v; try discriminate. cbn [Py.strs map text_of].
  now rewrite IH.
Qed.

Lemma author_names_of_ok v :
  authors_ok v = true ->
  author_names_of v = Ok (map (fun a => JStr (author_name a)) (items_of v)).
Proof.
  destruct v as [| | | | |l|]; try discriminate. cbn [authors_ok items_of].
  unfold author_names_of. cbn [Py.iter bind].
  induction l as [|a l IH]; [reflexivity|].
  cbn [forallb]. intros Hl. apply andb_prop in Hl as [Ha Hl].
  cbn [map_py map]. rewrite (IH Hl).
  destruct a as [| | | | | |d]; try discriminate.
  rewrite get_of_dict. cbn [bind author_name].
  unfold author_ok, field in *.
  destruct (Py.lookup "name" d) as [v|]; [|reflexivity].
  now destruct v.
Qed.

Lemma join_author_names l :
  Py.join "; " (JList (map (fun a => JStr (author_name a)) l))
  = Ok (JStr (Py.concat_with "; " (map author_name l))).
Proof.
  unfold Py.join. cbn [Py.iter bind].
  rewrite strs_of_texts.
  - cbn [bind]. now rewrite map_map.
  - apply forallb_forall. intros v Hin.
    apply in_map_iff in Hin as (a & <- & _). reflexivity.
Qed.

Lemma join_publication_types v :
  types_ok v = true ->
  Py.join "; " (Py.or_else v (JList []))
  = Ok (JStr (Py.concat_with "; " (map text_of (items_of v)))).
Proof.
  destruct v as [| | | | |l|]; try discriminate; [reflexivity|].
  cbn [types_ok items_of]. intros Hl.
  destruct l as [|t l]; [reflexivity|].
  unfold Py.or_else, Py.join. cbn [Py.truthy Py.iter bind].
  now rewrite strs_of_texts.
Qed.

Lemma get_external_id v k :
  ids_ok v = true ->
  Py.get (Py.or_else v (JDict [])) k (JStr "")
  = Ok (field k (JStr "") (mapping_of v)).
Proof.
  destruct v as [| | | | | |d]; try discriminate; [reflexivity|].
  intros _. now destruct d.
Qed.

Lemma citing_abstract_of_ok cp :
  optional abstract_ok "abstract" cp = true ->
  citing_abstract_of (JDict cp) = Ok (JStr (abstract_text cp)).
Proof.
  unfold citing_abstract_of, abstract_text, optional.
  rewrite !get_of_dict. cbn [bind]. unfold field.
  destruct (Py.lookup "abstract" cp) as [v|]; [|reflexivity].
  destruct v as [| | | |s| |]; try discriminate; [reflexivity|].
  intros _. now destruct s.
Qed.

Lemma get_citing_paper citation cp :
  citing_paper_of citation = Some cp ->
  Py.get citation "citingPaper" (JDict []) = Ok (JDict cp).
Proof.
  destruct citation as [| | | | | |d]; try discriminate.
  cbn [citing_paper_of]. rewrite get_of_dict. unfold field.
  destruct (Py.lookup "citingPaper" d) as [v|].
  - destruct v; try discriminate. now intros [= ->].
  - now intros [= <-].
Qed.

(** On an edge whose fields have the types of the data model the flattening
    does not raise, and its row is [flattened]. *)
Lemma citation_data_flattens doi paper paper_id title citation cp :
  citing_paper_of citation = Some cp -> citing_paper_ok cp = true ->
  citation_data doi (JDict paper) paper_id title citation
  = Ok (flattened doi paper paper_id title cp).
Proof.
  intros Hcp Hok. unfold citing_paper_ok in Hok.
  apply andb_prop in Hok as [Hok Habstract].
  apply andb_prop in Hok as [Hok Htypes].
  apply andb_prop in Hok as [Hauthors Hids].
  unfold citation_data.
  rewrite (get_citing_paper _ _ Hcp). cbn [bind].
  rewrite !get_of_dict. cbn [bind].
  rewrite author_names_of_ok by now apply optional_field.
  cbn [bind].
  rewrite !get_external_id by now apply optional_field.
  cbn [bind].
  rewrite join_author_names. cbn [bind].
  rewrite join_publication_types by now apply optional_field.
  cbn [bind].
  rewrite citing_abstract_of_ok by assumption.
  reflexivity.
Qed.

Lemma length_take n : forall s,
  String.length (Py.take n s) = Nat.min n (String.length s).
Proof.
  induction n as [|n IH]; intros s; [reflexivity|].
  destruct s as [|c s]; [reflexivity|]. cbn. now rewrite IH.
Qed.

Lemma prefix_take n : forall s, String.prefix (Py.take n s) s = true.
Proof.
  induction n as [|n IH]; intros s; [now destruct s|].
  destruct s as [|c s]; [reflexivity|].
  cbn. destruct (ascii_dec c c); [apply IH|congruence].
Qed.

Lemma length_append s : forall t,
  String.length (s ++ t)%string = (String.length s + String.length t)%nat.
Proof. induction s as [|c s IH]; intros t; [reflexivity|]. cbn. now rewrite IH. Qed.

(** What a row that was produced holds in its scalar fields and abstract. *)
Lemma citation_data_fields doi paper paper_id title citation cp row :
  citing_paper_of citation = Some cp ->
  citation_data doi paper paper_id title citation = Ok row ->
  citing_title row = field "title" (JStr "") cp
  /\ citing_year row = field "year" (JStr "") cp
  /\ citing_venue row = field "venue" (JStr "") cp
  /\ citing_citation_count row = field "citationCount" (JInt 0) cp
  /\ citing_paper_id row = field "paperId" (JStr "") cp
  /\ citing_abstract_of (JDict cp) = Ok (citing_abstract row).
Proof.
  intros Hcp Hrow. unfold citation_data in Hrow.
  rewrite (get_citing_paper _ _ Hcp) in Hrow. cbn [bind] in Hrow.
  rewrite !get_of_dict in Hrow. cbn [bind] in Hrow.
  bind_inversion Hrow.
  injection Hrow as <-. cbn. repeat split.
Qed.

(** C4.  For the citing paper [cp] of an edge: a non-empty abstract is cut to
    its first 500 characters and the three-character marker is appended, so
    an abstract of 600 characters gives its first 500 characters and the
    marker, 503 characters in all; a missing or empty abstract gives the
    empty string.  The row of the edge carries that value. *)
Theorem abstract_is_cut_at_500 doi paper paper_id title citation cp :
  citing_paper_of citation = Some cp ->
  (forall row,
      citation_data doi paper paper_id title citation = Ok row ->
      citing_abstract_of (JDict cp) = Ok (citing_abstract row))
  /\ (forall s,
         Py.lookup "abstract" cp = Some (JStr s) -> s <> ""%string ->
         citing_abstract_of (JDict cp)
         = Ok (JStr (Py.take 500 s ++ "...")%string))
  /\ (forall s,
         Py.lookup "abstract" cp = Some (JStr s) ->
         String.length s = 600%nat ->
         citing_abstract_of (JDict cp)
         = Ok (JStr (Py.take 500 s ++ "...")%string)
         /\ String.length (Py.take 500 s) = 500%nat
         /\ String.prefix (Py.take 500 s) s = true
         /\ String.length (Py.take 500 s ++ "...")%string = 503%nat)
  /\ (Py.lookup "abstract" cp = None
      \/ Py.lookup "abstract" cp = Some (JStr "") ->
      citing_abstract_of (JDict cp) = Ok (JStr "")).
Proof.
  intros Hcp.
  assert (Hcut : forall s,
             Py.lookup "abstract" cp = Some (JStr s) -> s <> ""%string ->
             citing_abstract_of (JDict cp)
             = Ok (JStr (Py.take 500 s ++ "...")%string)).
  { intros s Hs Hne. unfold citing_abstract_of.
    rewrite !get_of_dict. unfold field. rewrite Hs. cbn [bind Py.truthy].
    destruct s as [|c s]; [congruence|reflexivity]. }
  split; [|split; [exact Hcut|split]].
  - intros row Hrow.
    now destruct (citation_data_fields _ _ _ _ _ _ _ Hcp Hrow)
      as (_ & _ & _ & _ & _ & Habstract).
  - intros s Hs Hlen.
    assert (Htake : String.length (Py.take 500 s) = 500%nat).
    { rewrite length_take, Hlen. apply Nat.min_l, Nat.leb_le. reflexivity. }
    split; [|split; [exact Htake|split; [apply prefix_take|]]].
    + apply Hcut; [assumption|]. intros ->. discriminate Hlen.
    + now rewrite length_append, Htake.
  - unfold citing_abstract_of. rewrite !get_of_dict. unfold field.
    now intros [-> | ->].
Qed.

Lemma abstract_is_cut_at_500_witness :
  let cp := [("abstract", JStr long_abstract)] in
  let citation := JDict [("citingPaper", JDict cp)] in
  citing_paper_of citation = Some cp
  /\ String.length long_abstract = 600%nat
  /\ citing_abstract_of (JDict cp)
     = Ok (JStr (Py.take 500 long_abstract ++ "...")%string)
  /\ String.length (Py.take 500 long_abstract ++ "...")%string = 503%nat.
Proof.
  destruct (proj1 (proj2 (proj2
              (abstract_is_cut_at_500 "10.1/x" (JDict []) (JStr "p") (JStr "T")
                 (JDict [("citingPaper",
                          JDict [("abstract", JStr long_abstract)])])
                 [("abstract", JStr long_abstract)] eq_refl)))
              long_abstract eq_refl eq_refl)
    as (Hcut & _ & _ & Hlen).
  split; [reflexivity|split; [reflexivity|split; [exact Hcut|exact Hlen]]].
Defined.

(** C8, as the code has it.  On an edge whose nested fields are each missing
    or of the type the data model gives them ([externalIds],
    [publicationTypes] and [abstract] may also be null) the flattening does
    not raise: it returns the row [flattened], in which a missing or null
    [externalIds] gives the empty string for each of the three identifiers, a
    missing or null [publicationTypes] gives the empty join, an author
    without a name contributes the empty string to the joined names, and a
    missing [citingPaper] gives every citing field its default. *)
Theorem well_typed_edge_flattens_with_defaults
    doi paper paper_id title citation cp :
  citing_paper_of citation = Some cp -> citing_paper_ok cp = true ->
  let row := flattened doi paper paper_id title cp in
  citation_data doi (JDict paper) paper_id title citation = Ok row
  /\ (field "externalIds" JNull cp = JNull ->
      citing_doi row = JStr "" /\ citing_pubmed_id row = JStr ""
      /\ citing_arxiv_id row = JStr "")
  /\ (field "publicationTypes" JNull cp = JNull ->
      citing_publication_types row = JStr "")
  /\ citing_authors row
     = JStr (Py.concat_with "; "
               (map author_name (items_of (field "authors" (JList []) cp))))
  /\ (forall d, Py.lookup "name" d = None -> author_name (JDict d) = ""%string)
  /\ (cp = [] ->
      row = mk_row (JStr doi) title paper_id (field "corpusId" (JStr "") paper)
              (JStr "") (JStr "") (JStr "") (JStr "") (JStr "") (JStr "")
              (JStr "") (JInt 0) (JStr "") (JStr "") (JStr "")).
Proof.
  intros Hcp Hok row; subst row.
  split; [now apply citation_data_flattens|].
  unfold flattened; cbn [citing_doi citing_pubmed_id citing_arxiv_id
                          citing_publication_types citing_authors].
  split; [|split; [|split; [reflexivity|split]]].
  - intros ->. repeat split.
  - now intros ->.
  - intros d Hd. unfold author_name, field. now rewrite Hd.
  - now intros ->.
Qed.

Lemma well_typed_edge_flattens_with_defaults_witness :
  let cp := [("authors", JList [JDict [("name", JStr "A")]; JDict []]);
             ("externalIds", JNull)] in
  let citation := JDict [("citingPaper", JDict cp)] in
  let row := flattened "10.1/x" [] (JStr "p") (JStr "T") cp in
  citation_data "10.1/x" (JDict []) (JStr "p") (JStr "T") citation = Ok row
  /\ citing_authors row = JStr "A; "
  /\ citing_doi row = JStr "".
Proof.
  destruct (well_typed_edge_flattens_with_defaults "10.1/x" [] (JStr "p")
              (JStr "T")
              (JDict [("citingPaper",
                       JDict [("authors",
                               JList [JDict [("name", JStr "A")]; JDict []]);
                              ("externalIds", JNull)])])
              [("authors", JList [JDict [("name", JStr "A")]; JDict []]);
               ("externalIds", JNull)] eq_refl eq_refl)
    as (Hrow & Hids & _ & Hauthors & _).
  split; [exact Hrow|split; [exact Hauthors|]].
  exact (proj1 (Hids eq_refl)).
Defined.

(** C8 fails on fields that are present with another type: a null
    [citingPaper], a null [authors] and an author whose [name] is null each
    make the flattening raise. *)
Lemma malformed_fields_raise :
  citation_data "10.1/x" (JDict []) (JStr "p") (JStr "T")
    (JDict [("citingPaper", JNull)]) = Err AttributeError
  /\ citation_data "10.1/x" (JDict []) (JStr "p") (JStr "T")
       (JDict [("citingPaper", JDict [("authors", JNull)])]) = Err TypeError
  /\ citation_data "10.1/x" (JDict []) (JStr "p") (JStr "T")
       (JDict [("citingPaper",
                JDict [("authors", JList [JDict [("name", JNull)]])])])
     = Err TypeError.
Proof. repeat split. Qed.

(** C10.  In a row that was produced, a missing [citationCount] gives the
    integer 0, while a missing [title], [year], [venue] or [paperId] gives
    the empty string.  On an edge with nothing in it the flattening succeeds
    and, of the twelve fields that have a default, the citation count is the
    only one that is not a string.  The year column mixes the two kinds: an
    integer where the service gave one, the empty string where it did not. *)
Theorem missing_citation_count_defaults_to_zero :
  (forall doi paper paper_id title citation cp row,
      citing_paper_of citation = Some cp ->
      citation_data doi paper paper_id title citation = Ok row ->
      (Py.lookup "citationCount" cp = None ->
       citing_citation_count row = JInt 0)
      /\ (Py.lookup "title" cp = None -> citing_title row = JStr "")
      /\ (Py.lookup "year" cp = None -> citing_year row = JStr "")
      /\ (Py.lookup "venue" cp = None -> citing_venue row = JStr "")
      /\ (Py.lookup "paperId" cp = None -> citing_paper_id row = JStr ""))
  /\ (forall doi paper_id title,
         exists row,
           citation_data doi (JDict []) paper_id title bare_edge = Ok row
           /\ citing_citation_count row = JInt 0
           /\ map is_str
                [original_corpus_id row; citing_title row; citing_authors row;
                 citing_year row; citing_venue row; citing_doi row;
                 citing_pubmed_id row; citing_arxiv_id row;
                 citing_citation_count row; citing_paper_id row;
                 citing_publication_types row; citing_abstract row]
              = [true; true; true; true; true; true; true; true;
                 false; true; true; true])
  /\ (forall doi paper_id title,
         option_map citing_year
           (match citation_data doi (JDict []) paper_id title
                    (JDict [("citingPaper", JDict [("year", JInt 2020)])]) with
            | Ok row => Some row
            | Err _ => None
            end) = Some (JInt 2020)
         /\ option_map citing_year
              (match citation_data doi (JDict []) paper_id title bare_edge with
               | Ok row => Some row
               | Err _ => None
               end) = Some (JStr "")).
Proof.
  split; [|split].
  - intros doi paper paper_id title citation cp row Hcp Hrow.
    destruct (citation_data_fields _ _ _ _ _ _ _ Hcp Hrow)
      as (Htitle & Hyear & Hvenue & Hcount & Hid & _).
    rewrite Htitle, Hyear, Hvenue, Hcount, Hid. unfold field.
    repeat split; now intros ->.
  - intros doi paper_id title.
    exists (flattened doi [] paper_id title []). repeat split.
  - intros doi paper_id title. split; reflexivity.
Qed.

Lemma missing_citation_count_defaults_to_zero_witness :
  let citation := JDict [("citingPaper", JDict [("year", JInt 2020)])] in
  let row := flattened "10.1/x" [] (JStr "p") (JStr "T") [("year", JInt 2020)] in
  citation_data "10.1/x" (JDict []) (JStr "p") (JStr "T") citation = Ok row
  /\ citing_citation_count row = JInt 0
  /\ citing_title row = JStr ""
  /\ citing_year row = JInt 2020.
Proof.
  destruct (proj1 missing_citation_count_defaults_to_zero
              "10.1/x"%string (JDict []) (JStr "p") (JStr "T")
              (JDict [("citingPaper", JDict [("year", JInt 2020)])])
              [("year", JInt 2020)]
              (flattened "10.1/x" [] (JStr "p") (JStr "T")
                 [("year", JInt 2020)])
              eq_refl eq_refl)
    as (Hcount & Htitle & _).
  split; [reflexivity|split; [exact (Hcount eq_refl)|]].
  split; [exact (Htitle eq_refl)|reflexivity].
Defined.

(** ** The data frame *)

Lemma found_counts_app es1 es2 :
  found_counts (es1 ++ es2) = found_counts es1 ++ found_counts es2.
Proof.
  induction es1 as [|e es1 IH]; [reflexivity|].
  destruct e as [r|d|m]; cbn; try assumption.
  destruct m; cbn; now rewrite ?IH.
Qed.

Lemma resolver_announces_nothing self frames doi world :
  found_counts (events (get_paper_by_doi self frames doi world)) = [].
Proof.
  revert frames.
  induction world as [|r world IH]; intros frames; [reflexivity|].
  cbn [get_paper_by_doi].
  destruct r as [e|code body]; [now destruct e|].
  repeat match goal with
         | |- context [if ?b then _ else _] => destruct b
         | |- context [match ?x with _ => _ end] => destruct x
         end;
    cbn [after events returns app found_counts paper_except];
    try reflexivity; try apply IH.
  all: now match goal with e : exn |- _ => destruct e end.
Qed.

Lemma fetcher_loop_announces_nothing self paper_id limit world :
  forall offset acc,
    found_counts
      (events (get_forward_citations_loop self paper_id limit offset acc world))
    = [].
Proof.
  induction world as [|r world IH]; intros offset acc; [reflexivity|].
  cbn [get_forward_citations_loop].
  destruct r as [e|code body]; [now destruct e|].
  repeat match goal with
         | |- context [if ?b then _ else _] => destruct b
         | |- context [match ?x with _ => _ end] => destruct x
         end;
    cbn [after events returns app found_counts citations_except];
    try reflexivity; try apply IH.
  all: now match goal with e : exn |- _ => destruct e end.
Qed.

Lemma fetcher_announces_nothing self paper_id limit world :
  found_counts (events (get_forward_citations self paper_id limit world)) = [].
Proof.
  unfold get_forward_citations. cbn [after events app found_counts].
  apply fetcher_loop_announces_nothing.
Qed.

Lemma map_py_length {A B} (f : A -> py B) l : forall rows,
  map_py f l = Ok rows -> List.length rows = List.length l.
Proof.
  induction l as [|a l IH]; intros rows Hrows.
  - now injection Hrows as <-.
  - cbn [map_py] in Hrows. bind_inversion Hrows.
    injection Hrows as <-. cbn. f_equal. now apply IH.
Qed.

(** One document: the rows it adds are as many as the edges announced for
    it, and none are announced when it does not resolve. *)
Lemma process_doi_counts self frames i n doi world rows :
  outcome (process_doi self frames i n doi world) = Some (Ok rows) ->
  list_sum (found_counts (events (process_doi self frames i n doi world)))
  = List.length rows.
Proof.
  unfold process_doi.
  cbn [after events outcome app found_counts].
  rewrite found_counts_app, resolver_announces_nothing. cbn [app].
  destruct (outcome (get_paper_by_doi self frames doi world)) as [paper|];
    [|discriminate].
  destruct (resolved paper) as [p|]; [|now intros [= <-]].
  destruct (paper_id <- Py.getitem p "paperId" ;;
            title <- Py.get p "title" (JStr "Unknown") ;;
            Ok (paper_id, title)) as [[paper_id title]|e]; [|discriminate].
  cbn [after events outcome].
  rewrite found_counts_app, fetcher_announces_nothing. cbn [app].
  destruct (outcome (get_forward_citations self paper_id 1000
                       (rest (get_paper_by_doi self frames doi world))))
    as [citations|]; [|discriminate].
  cbn [after events outcome app found_counts].
  destruct (map_py (citation_data doi p paper_id title) citations)
    as [rows'|e] eqn:Hrows; [|discriminate].
  cbn [after events outcome returns app found_counts list_sum].
  intros [= <-]. rewrite (map_py_length _ _ _ Hrows). apply Nat.add_0_r.
Qed.

Lemma process_dois_loop_counts self frames n dois : forall i acc world rows,
  outcome (process_dois_loop self frames i n dois acc world) = Some (Ok rows) ->
  List.length rows =
  (List.length acc
   + list_sum (found_counts
                 (events (process_dois_loop self frames i n dois acc world))))%nat.
Proof.
  induction dois as [|doi dois IH]; intros i acc world rows.
  - cbn. intros [= <-]. lia.
  - cbn [process_dois_loop after events outcome].
    pose proof (process_doi_counts self frames i n doi world) as Hthis.
    destruct (outcome (process_doi self frames i n doi world)) as [[added|e]|];
      try discriminate.
    intros Hrows. apply IH in Hrows.
    rewrite found_counts_app, list_sum_app, (Hthis added eq_refl).
    rewrite length_app in Hrows. lia.
Qed.

Lemma list_sum_zero l : list_sum l = 0%nat <-> Forall (fun n => n = 0%nat) l.
Proof.
  induction l as [|n l IH]; [now split|].
  change (list_sum (n :: l)) with (n + list_sum l)%nat.
  split.
  - intros Hsum. constructor; [lia|]. apply IH. lia.
  - intros Hall. inversion Hall; subst. now apply IH.
Qed.

(** C3, as the code has it.  The data frame has one row for each edge
    fetched for each document that resolved, so it is empty exactly when no
    document that resolved had an edge: when none resolved, and just as well
    when some resolved and zero edges were found for them. *)
Theorem empty_dataset_means_no_edges self frames dois world rows :
  outcome (process_dois self frames dois world) = Some (Ok rows) ->
  let counts := found_counts (events (process_dois self frames dois world)) in
  List.length rows = list_sum counts
  /\ (rows = [] <-> Forall (fun n => n = 0%nat) counts).
Proof.
  intros Hrows counts; subst counts. unfold process_dois in *.
  apply process_dois_loop_counts in Hrows. cbn [List.length Nat.add] in Hrows.
  split; [exact Hrows|].
  rewrite <- list_sum_zero, <- Hrows.
  split; [now intros ->|apply length_zero_iff_nil].
Qed.

Lemma empty_dataset_means_no_edges_witness :
  let world := [Http 200 (Ok (JDict [("paperId", JStr "p")]));
                page [bare_edge]] in
  let run := process_dois (init None) usual_frames ["10.1/x"%string] world in
  found_counts (events run) = [1%nat]
  /\ option_map (fun rows => match rows with
                             | Ok rows => List.length rows
                             | Err _ => 0%nat
                             end) (outcome run) = Some 1%nat.
Proof.
  destruct (empty_dataset_means_no_edges (init None) usual_frames ["10.1/x"%string]
              [Http 200 (Ok (JDict [("paperId", JStr "p")]));
               page [bare_edge]]
              [flattened "10.1/x" [("paperId", JStr "p")] (JStr "p")
                 (JStr "Unknown") []]
              eq_refl) as (Hlen & _).
  split; reflexivity.
Defined.

(** C3 fails: a document that resolves and has no citation edge leaves the
    data frame as empty as a document that does not resolve. *)
Lemma resolved_without_edges_is_empty_too :
  let paper := JDict [("paperId", JStr "p")] in
  let resolves := [Http 200 (Ok paper); page []] in
  let not_found := [Http 404 (Ok JNull)] in
  outcome (get_paper_by_doi (init None) usual_frames "10.1/x" resolves) = Some (Some paper)
  /\ outcome (get_forward_citations (init None) (JStr "p") 1000 [page []])
     = Some []
  /\ outcome (process_dois (init None) usual_frames ["10.1/x"%string] resolves)
     = Some (Ok [])
  /\ outcome (get_paper_by_doi (init None) usual_frames "10.1/x" not_found) = Some None
  /\ outcome (process_dois (init None) usual_frames ["10.1/x"%string] not_found)
     = Some (Ok []).
Proof. repeat split. Qed.

(** Two DOIs, the first resolving with three edges on one page, the second
    not found: three rows, all for the first DOI. *)
Example two_dois_one_not_found :
  let edge := JDict [("citingPaper", JDict [("title", JStr "t")])] in
  let paper := JDict [("paperId", JStr "p"); ("title", JStr "T")] in
  let world := [Http 200 (Ok paper); page [edge; edge; edge];
                Http 404 (Ok JNull)] in
  let row := flattened "10.1/a" [("paperId", JStr "p"); ("title", JStr "T")]
               (JStr "p") (JStr "T") [("title", JStr "t")] in
  outcome (process_dois (init None) usual_frames ["10.1/a"%string; "10.1/b"%string] world)
  = Some (Ok [row; row; row])
  /\ original_doi row = JStr "10.1/a".
Proof. split; reflexivity. Qed.

(** * Further properties of the code *)

(** ** The constructor *)

(** X1.  A non-empty key is sent as the [x-api-key] header and shortens the
    delay to 0.31; without a key the delay is 3.1 and no such header is
    sent.  The empty key is a key as far as [has_api_key] goes, yet it is
    not sent and the delay stays 3.1. *)
Theorem credential_tiers :
  (forall k,
      k <> ""%string ->
      headers (init (Some k))
      = [("User-Agent", "SemanticScholarCitationScraper/1.0")%string;
         ("x-api-key", k)%string]
      /\ delay (init (Some k)) = 0.31%Q
      /\ has_api_key (init (Some k)) = true)
  /\ (headers (init None)
      = [("User-Agent", "SemanticScholarCitationScraper/1.0")%string]
      /\ delay (init None) = 3.1%Q
      /\ has_api_key (init None) = false)
  /\ (headers (init (Some ""%string)) = headers (init None)
      /\ delay (init (Some ""%string)) = 3.1%Q
      /\ has_api_key (init (Some ""%string)) = true).
Proof.
  split; [|now repeat split].
  intros k Hk. unfold init. cbn [headers delay has_api_key].
  apply String.eqb_neq in Hk. rewrite Hk. now repeat split.
Qed.

Lemma credential_tiers_witness :
  delay (init (Some "secret"%string)) = 0.31%Q
  /\ has_api_key (init (Some "secret"%string)) = true.
Proof.
  destruct (proj1 credential_tiers "secret"%string) as (_ & Hdelay & Hkey).
  - discriminate.
  - split; [exact Hdelay|exact Hkey].
Defined.

(** ** What every run keeps *)

Lemma requests_after {A} es (r : run A) :
  requests_of (events (after es r)) = requests_of es ++ requests_of (events r).
Proof. apply requests_of_app. Qed.

Lemma sleeps_after {A} es (r : run A) :
  sleeps_of (events (after es r)) = sleeps_of es ++ sleeps_of (events r).
Proof. apply sleeps_of_app. Qed.

Lemma resolver_requests_from_scraper self frames doi world :
  Forall (from_scraper self)
         (requests_of (events (get_paper_by_doi self frames doi world))).
Proof.
  revert frames.
  induction world as [|r world IH]; intros frames; cbn [get_paper_by_doi].
  - repeat constructor.
  - split_cases;
      cbn [after events returns app requests_of paper_except];
      repeat (constructor; [now split|]); try constructor; apply IH.
Qed.

Lemma fetcher_loop_requests_from_scraper self paper_id limit world :
  forall offset acc,
    Forall (from_scraper self)
      (requests_of
         (events (get_forward_citations_loop self paper_id limit offset acc
                    world))).
Proof.
  induction world as [|r world IH]; intros offset acc;
    cbn [get_forward_citations_loop].
  - repeat constructor.
  - split_cases;
      cbn [after events returns app requests_of];
      repeat (constructor; [now split|]); try constructor; apply IH.
Qed.

Lemma process_doi_requests_from_scraper self frames i n doi world :
  Forall (from_scraper self)
         (requests_of (events (process_doi self frames i n doi world))).
Proof.
  unfold process_doi. rewrite requests_after. cbn [requests_of].
  apply Forall_app.
  split; [apply resolver_requests_from_scraper|].
  destruct (outcome (get_paper_by_doi self frames doi world)) as [paper|];
    [|constructor].
  destruct (resolved paper) as [p|]; [|constructor].
  destruct (paper_id <- Py.getitem p "paperId" ;;
            title <- Py.get p "title" (JStr "Unknown") ;;
            Ok (paper_id, title)) as [[paper_id title]|e]; [|constructor].
  rewrite requests_after. apply Forall_app. split.
  - unfold get_forward_citations. rewrite requests_after.
    apply fetcher_loop_requests_from_scraper.
  - split_cases; cbn; constructor.
Qed.

(** X2.  Whatever the DOIs and whatever the service answers, every request
    of a run of [process_dois] carries the scraper's headers (with the
    credential, when there is one) and the timeout of 30. *)
Theorem every_request_is_from_scraper self frames dois world :
  Forall (from_scraper self)
         (requests_of (events (process_dois self frames dois world))).
Proof.
  unfold process_dois. generalize 0%nat (List.length dois) (@nil citation_row).
  revert world.
  induction dois as [|doi dois IH]; intros world i n acc;
    cbn [process_dois_loop].
  - constructor.
  - rewrite requests_after. apply Forall_app.
    split; [apply process_doi_requests_from_scraper|].
    destruct (outcome (process_doi self frames i n doi world)) as [[rows|e]|];
      try constructor.
    apply IH.
Qed.

(** ** The resolver, response by response *)

(** X5.  On a response that does not throttle, the resolver returns a paper
    in one case only: status 200, a body that decodes to a dict, and a title
    that is missing, a string or a list.  In particular a paper the service
    found is returned as [None] when its title is null, a number or any
    other value the progress message cannot slice, after one request; the
    exception printed is [TypeError], or the version-dependent exception of
    a sliced dict when the title is a dict. *)
Theorem resolver_finds_exactly self frames doi r world :
  ~ throttles r ->
  (forall paper,
      outcome (get_paper_by_doi self frames doi (r :: world))
      = Some (Some paper)
      <-> exists d, paper = JDict d /\ r = Http 200 (Ok (JDict d))
                    /\ sliceable (field "title" (JStr "Unknown") d) = true)
  /\ (forall d v,
         r = Http 200 (Ok (JDict d)) ->
         Py.lookup "title" d = Some v -> sliceable v = false ->
         outcome (get_paper_by_doi self frames doi (r :: world)) = Some None
         /\ events (get_paper_by_doi self frames doi (r :: world))
            = [Request (paper_request self (clean doi));
               Print (ExceptionForDoi (clean doi)
                        match v with
                        | JDict _ => DictSliceError
                        | _ => TypeError
                        end)]).
Proof.
  intros Hr. split.
  - intros paper. split.
    + destruct r as [e|code body]; cbn [get_paper_by_doi]; [discriminate|].
      destruct (Z.eqb_spec code 200) as [->|Hcode].
      * destruct body as [v|e]; [|discriminate].
        destruct v as [| | | | | |d]; try discriminate.
        cbn [bind]. rewrite get_of_dict. cbn [bind].
        destruct (field "title" (JStr "Unknown") d) eqn:Htitle;
          try discriminate;
          intros [= <-]; exists d; now rewrite Htitle.
      * destruct (code =? 404)%Z; [discriminate|].
        destruct (Z.eqb_spec code 429) as [->|]; [|discriminate].
        exfalso. apply Hr. now exists body.
    + intros (d & -> & -> & Htitle). cbn [get_paper_by_doi].
      change (200 =? 200)%Z with true. cbv iota.
      cbn [bind]. rewrite get_of_dict. cbn [bind].
      now destruct (field "title" (JStr "Unknown") d).
  - intros d v -> Hv Hslice. cbn [get_paper_by_doi].
    change (200 =? 200)%Z with true. cbv iota.
    cbn [bind]. rewrite get_of_dict. unfold field. rewrite Hv. cbn [bind].
    now destruct v.
Qed.

Lemma resolver_finds_exactly_witness :
  let paper := JDict [("paperId", JStr "p")] in
  let untitled := JDict [("paperId", JStr "p"); ("title", JNull)] in
  outcome (get_paper_by_doi (init None) usual_frames "10.1/x"
             [Http 200 (Ok paper)])
  = Some (Some paper)
  /\ outcome (get_paper_by_doi (init None) usual_frames "10.1/x"
                [Http 200 (Ok untitled)])
     = Some None.
Proof.
  assert (Hok : forall body, ~ throttles (Http 200 body)).
  { intros body (body' & Heq). discriminate Heq. }
  split.
  - apply (proj1 (resolver_finds_exactly (init None) usual_frames "10.1/x"
                    (Http 200 (Ok (JDict [("paperId", JStr "p")]))) []
                    (Hok _))).
    exists [("paperId", JStr "p")]. repeat split.
  - apply (proj2 (resolver_finds_exactly (init None) usual_frames "10.1/x"
                    (Http 200 (Ok (JDict [("paperId", JStr "p");
                                          ("title", JNull)]))) []
                    (Hok _))
             [("paperId", JStr "p"); ("title", JNull)] JNull);
      reflexivity.
Defined.

(** ** The fetcher, beyond the claims *)

Lemma offset_of_citations_request self paper_id limit offset :
  offset_of (citations_request self paper_id limit offset)
  = Some (JInt offset).
Proof. reflexivity. Qed.

Lemma fetcher_loop_limit_irrelevant self paper_id limit limit' world :
  forall offset acc,
    let a := get_forward_citations_loop self paper_id limit offset acc world in
    let b := get_forward_citations_loop self paper_id limit' offset acc world in
    outcome a = outcome b /\ rest a = rest b
    /\ sleeps_of (events a) = sleeps_of (events b)
    /\ map offset_of (requests_of (events a))
       = map offset_of (requests_of (events b)).
Proof.
  induction world as [|r world IH]; intros offset acc;
    cbn [get_forward_citations_loop]; cbv zeta.
  - now repeat split.
  - split_cases;
      try match goal with
          | |- context [get_forward_citations_loop _ _ limit ?o ?a world] =>
              destruct (IH o a) as (Hout & Hrest & Hsleep & Hreq)
          end;
      cbn [after events outcome rest returns app sleeps_of requests_of map];
      rewrite ?offset_of_citations_request;
      repeat split; try assumption; congruence.
Qed.

(** X6.  The limit reaches the service as a request parameter and nothing
    else: on the same script two limits give the same edges, use the same
    responses, wait the same and ask at the same offsets. *)
Theorem limit_changes_only_the_parameter self paper_id limit limit' world :
  let a := get_forward_citations self paper_id limit world in
  let b := get_forward_citations self paper_id limit' world in
  outcome a = outcome b /\ rest a = rest b
  /\ sleeps_of (events a) = sleeps_of (events b)
  /\ map offset_of (requests_of (events a))
     = map offset_of (requests_of (events b)).
Proof.
  unfold get_forward_citations.
  cbn [after events outcome rest app sleeps_of requests_of].
  apply fetcher_loop_limit_irrelevant.
Qed.

Lemma offsets_cons offset next offs :
  next = offset \/ next = offset + 1000 ->
  Forall (fun x => exists k, x = next + 1000 * Z.of_nat k) offs ->
  StronglySorted Z.le offs ->
  Forall (fun x => exists k, x = offset + 1000 * Z.of_nat k) (offset :: offs)
  /\ StronglySorted Z.le (offset :: offs).
Proof.
  intros Hnext Hoffs Hsorted.
  assert (Hfrom : Forall (fun x => exists k, x = offset + 1000 * Z.of_nat k)
                    offs).
  { eapply Forall_impl; [|exact Hoffs]. intros x [k ->].
    destruct Hnext as [-> | ->]; [now exists k|exists (S k); lia]. }
  split.
  - constructor; [exists 0%nat; lia|assumption].
  - constructor; [assumption|].
    eapply Forall_impl; [|exact Hfrom]. intros x [k ->]. lia.
Qed.

Lemma fetcher_loop_offsets self paper_id limit world : forall offset acc,
  exists offs,
    requests_of
      (events (get_forward_citations_loop self paper_id limit offset acc world))
    = map (citations_request self paper_id limit) (offset :: offs)
    /\ Forall (fun x => exists k, x = offset + 1000 * Z.of_nat k)
         (offset :: offs)
    /\ StronglySorted Z.le (offset :: offs).
Proof.
  induction world as [|r world IH]; intros offset acc;
    cbn [get_forward_citations_loop]; cbv zeta.
  - exists []. split; [reflexivity|].
    apply (offsets_cons offset offset []); auto; constructor.
  - split_cases;
      try match goal with
          | |- context [get_forward_citations_loop _ _ _ ?o ?a world] =>
              destruct (IH o a) as (offs & Hreq & Hoffs & Hsorted);
              exists (o :: offs);
              cbn [after events returns app requests_of map];
              split; [now rewrite Hreq|apply (offsets_cons offset o); auto]
          end;
      exists []; (split; [reflexivity|]);
      apply (offsets_cons offset offset []); auto; constructor.
Qed.

(** X7.  Every request of the fetcher is the citations request of the same
    paper and limit; the first asks at offset 0, every offset is a multiple
    of 1000 and the offsets never decrease along the run. *)
Theorem fetcher_offsets self paper_id limit world :
  exists offs,
    requests_of (events (get_forward_citations self paper_id limit world))
    = map (citations_request self paper_id limit) (0 :: offs)
    /\ Forall (fun x => exists k, x = 1000 * Z.of_nat k) (0 :: offs)
    /\ StronglySorted Z.le (0 :: offs).
Proof.
  destruct (fetcher_loop_offsets self paper_id limit world 0 [])
    as (offs & Hreq & Hoffs & Hsorted).
  exists offs. split; [exact Hreq|split; [|exact Hsorted]].
  eapply Forall_impl; [|exact Hoffs]. intros x [k ->]. now exists k.
Qed.

Lemma sleeps_of_full_pages self paper_id limit pages : forall offset acc,
  sleeps_of (full_pages_events self paper_id limit offset acc pages)
  = repeat (delay self) (2 * List.length pages).
Proof.
  induction pages as [|items pages IH]; intros offset acc; [reflexivity|].
  cbn [full_pages_events app sleeps_of List.length]. rewrite IH.
  replace (2 * S (List.length pages))%nat
    with (S (S (2 * List.length pages))) by lia.
  reflexivity.
Qed.

(** The responses that end the pagination: the loop asks once, does not
    wait, and returns. *)
Lemma loop_last_page self paper_id limit offset acc r last world :
  serves r last -> (List.length last < 1000)%nat ->
  exists es,
    get_forward_citations_loop self paper_id limit offset acc (r :: world)
    = after es (returns (acc ++ last) world)
    /\ requests_of es = [citations_request self paper_id limit offset]
    /\ sleeps_of es = [].
Proof.
  intros Hr Hlen. destruct last as [|edge last].
  - rewrite loop_empty_page by assumption. rewrite app_nil_r.
    eexists. now repeat split.
  - rewrite (loop_short_page _ _ _ _ _ _ (edge :: last)) by easy.
    eexists. now repeat split.
Qed.

Lemma loop_unreadable self paper_id limit offset acc r world :
  unreadable r ->
  exists es,
    get_forward_citations_loop self paper_id limit offset acc (r :: world)
    = after es (returns acc world)
    /\ requests_of es = [citations_request self paper_id limit offset]
    /\ sleeps_of es = [].
Proof.
  intros (body & -> & Hbody). cbn [get_forward_citations_loop].
  change (200 =? 200)%Z with true. cbv iota.
  destruct body as [v|e]; cbn [bind];
    [|eexists; now repeat split].
  destruct v as [| | | | | |d]; cbn [Py.get];
    try (eexists; now repeat split).
  fold (field "data" (JList []) d). cbv zeta in Hbody.
  destruct (Py.truthy (field "data" (JList []) d)) eqn:Htruthy; cbn [negb].
  - destruct Hbody as [Hfalse|Hiter]; [discriminate|].
    rewrite Hiter. eexists. now repeat split.
  - eexists. now repeat split.
Qed.

Lemma loop_fault_ends self paper_id limit offset acc r world :
  faults r ->
  exists es,
    get_forward_citations_loop self paper_id limit offset acc (r :: world)
    = after es (returns acc world)
    /\ requests_of es = [citations_request self paper_id limit offset]
    /\ sleeps_of es = [].
Proof.
  intros Hr. rewrite loop_fault by assumption. eexists. now repeat split.
Qed.

(** What a run of full pages followed by an ending response amounts to. *)
Lemma fetcher_full_pages_then_end
    self paper_id limit rs pages r world edges :
  Forall2 serves rs pages ->
  Forall (fun items => (1000 <= List.length items)%nat) pages ->
  (forall offset acc,
      exists es,
        get_forward_citations_loop self paper_id limit offset acc (r :: world)
        = after es (returns (acc ++ edges) world)
        /\ requests_of es = [citations_request self paper_id limit offset]
        /\ sleeps_of es = []) ->
  let fetched :=
    get_forward_citations self paper_id limit (rs ++ r :: world) in
  outcome fetched = Some (concat pages ++ edges)
  /\ rest fetched = world
  /\ List.length (requests_of (events fetched)) = S (List.length pages)
  /\ sleeps_of (events fetched) = repeat (delay self) (2 * List.length pages).
Proof.
  intros Hrs Hfull Hend fetched; subst fetched.
  unfold get_forward_citations.
  rewrite (loop_full_pages _ _ _ rs pages) by assumption.
  destruct (Hend (0 + 1000 * Z.of_nat (List.length pages)) ([] ++ concat pages))
    as (es & -> & Hreq & Hsleep).
  cbn [after events outcome rest returns app sleeps_of requests_of].
  split; [reflexivity|split; [reflexivity|split]].
  - rewrite !requests_of_app, !length_app, requests_of_full_pages, Hreq.
    cbn. lia.
  - rewrite !sleeps_of_app, sleeps_of_full_pages, Hsleep.
    now rewrite !app_nil_r.
Qed.

(** X8.  Whatever the limit, the pagination goes on through the pages of
    1000 edges or more and ends at the first page that has fewer, empty or
    not: the edges of all these pages are returned in the order of the
    pages, after one request per page, and nothing after that page is
    used. *)
Theorem pagination_ends_below_1000 self paper_id limit rs pages r last world :
  Forall2 serves rs pages ->
  Forall (fun items => (1000 <= List.length items)%nat) pages ->
  serves r last -> (List.length last < 1000)%nat ->
  let fetched :=
    get_forward_citations self paper_id limit (rs ++ r :: world) in
  outcome fetched = Some (concat pages ++ last)
  /\ rest fetched = world
  /\ List.length (requests_of (events fetched)) = S (List.length pages).
Proof.
  intros Hrs Hfull Hr Hlen.
  destruct (fetcher_full_pages_then_end self paper_id limit rs pages r world
              last Hrs Hfull) as (Hout & Hrest & Hreq & _).
  - intros offset acc. now apply loop_last_page.
  - now repeat split.
Qed.

Lemma pagination_ends_below_1000_witness :
  let first := repeat bare_edge 1000 in
  let fetched :=
    get_forward_citations (init None) (JStr "p") 20
      ([page first] ++ page [bare_edge] :: [page [bare_edge]]) in
  outcome fetched = Some (concat [first] ++ [bare_edge])
  /\ rest fetched = [page [bare_edge]]
  /\ List.length (requests_of (events fetched)) = 2%nat.
Proof.
  apply (pagination_ends_below_1000 (init None) (JStr "p") 20
           [page (repeat bare_edge 1000)] [repeat bare_edge 1000]
           (page [bare_edge]) [bare_edge] [page [bare_edge]]).
  - constructor; [apply serves_page|constructor].
  - constructor; [apply Nat.leb_le; reflexivity|constructor].
  - apply serves_page.
  - apply Nat.ltb_lt. reflexivity.
Defined.

(** X9.  The fetcher waits twice the delay after every page that keeps the
    loop going (lines 88 and 106) and not at all after the response that
    ends it, be it a short page, a fault or an unreadable body: [k] full
    pages cost [2k] delays. *)
Theorem fetcher_waits_twice_per_full_page
    self paper_id limit rs pages r world :
  Forall2 serves rs pages ->
  Forall (fun items => (1000 <= List.length items)%nat) pages ->
  (exists last, serves r last /\ (List.length last < 1000)%nat)
  \/ faults r \/ unreadable r ->
  sleeps_of
    (events (get_forward_citations self paper_id limit (rs ++ r :: world)))
  = repeat (delay self) (2 * List.length pages).
Proof.
  intros Hrs Hfull [(last & Hr & Hlen)|[Hr|Hr]].
  - apply (fetcher_full_pages_then_end self paper_id limit rs pages r world
             last Hrs Hfull).
    intros offset acc. now apply loop_last_page.
  - apply (fetcher_full_pages_then_end self paper_id limit rs pages r world
             [] Hrs Hfull).
    intros offset acc. rewrite app_nil_r. now apply loop_fault_ends.
  - apply (fetcher_full_pages_then_end self paper_id limit rs pages r world
             [] Hrs Hfull).
    intros offset acc. rewrite app_nil_r. now apply loop_unreadable.
Qed.

Lemma fetcher_waits_twice_per_full_page_witness :
  sleeps_of
    (events (get_forward_citations (init None) (JStr "p") 1000
               ([page (repeat bare_edge 1000)] ++ page [bare_edge] :: [])))
  = [delay (init None); delay (init None)].
Proof.
  apply (fetcher_waits_twice_per_full_page (init None) (JStr "p") 1000
           [page (repeat bare_edge 1000)] [repeat bare_edge 1000]
           (page [bare_edge]) []).
  - constructor; [apply serves_page|constructor].
  - constructor; [apply Nat.leb_le; reflexivity|constructor].
  - left. exists [bare_edge]. split; [apply serves_page|].
    apply Nat.ltb_lt. reflexivity.
Defined.

(** X10.  A status 200 from which no page can be read ends the pagination
    like a fault: when the body does not decode, is not a dict, or has a
    ['data'] that is null, empty or not iterable, the edges of the pages
    before it are returned and nothing is raised. *)
Theorem unreadable_page_ends_pagination
    self paper_id limit rs pages r world :
  Forall2 serves rs pages ->
  Forall (fun items => (1000 <= List.length items)%nat) pages ->
  unreadable r ->
  let fetched :=
    get_forward_citations self paper_id limit (rs ++ r :: world) in
  outcome fetched = Some (concat pages)
  /\ rest fetched = world
  /\ List.length (requests_of (events fetched)) = S (List.length pages).
Proof.
  intros Hrs Hfull Hr.
  destruct (fetcher_full_pages_then_end self paper_id limit rs pages r world
              [] Hrs Hfull) as (Hout & Hrest & Hreq & _).
  - intros offset acc. rewrite app_nil_r. now apply loop_unreadable.
  - rewrite app_nil_r in Hout. now repeat split.
Qed.

Lemma unreadable_page_ends_pagination_witness :
  let first := repeat bare_edge 1000 in
  let null_data := Http 200 (Ok (JDict [("data", JNull)])) in
  let fetched :=
    get_forward_citations (init None) (JStr "p") 1000
      ([page first] ++ null_data :: []) in
  unreadable null_data
  /\ unreadable (Http 200 (Err JSONDecodeError))
  /\ unreadable (Http 200 (Ok (JList [])))
  /\ unreadable (Http 200 (Ok (JDict [("data", JInt 7)])))
  /\ outcome fetched = Some (concat [first]).
Proof.
  assert (Hnull : unreadable (Http 200 (Ok (JDict [("data", JNull)])))).
  { eexists. split; [reflexivity|]. left. reflexivity. }
  split; [exact Hnull|].
  split; [eexists; split; [reflexivity|exact I]|].
  split; [eexists; split; [reflexivity|exact I]|].
  split; [eexists; split; [reflexivity|right; reflexivity]|].
  apply (unreadable_page_ends_pagination (init None) (JStr "p") 1000
           [page (repeat bare_edge 1000)] [repeat bare_edge 1000]
           (Http 200 (Ok (JDict [("data", JNull)]))) []).
  - constructor; [apply serves_page|constructor].
  - constructor; [apply Nat.leb_le; reflexivity|constructor].
  - exact Hnull.
Defined.

Lemma loop_throttled_run self paper_id limit offset acc pre : forall world,
  Forall throttles pre ->
  get_forward_citations_loop self paper_id limit offset acc (pre ++ world)
  = after (concat (repeat (throttled_iteration self paper_id limit offset)
                     (List.length pre)))
          (get_forward_citations_loop self paper_id limit offset acc world).
Proof.
  induction pre as [|r pre IH]; intros world Hpre.
  - cbn. now destruct (get_forward_citations_loop _ _ _ _ _ world).
  - inversion Hpre as [|? ? Hr Hpre']; subst.
    cbn [app List.length repeat concat].
    rewrite loop_throttled by assumption.
    rewrite IH by assumption. now rewrite after_after.
Qed.

(** X11.  The loop has no bound on its retries: against a service that
    throttles forever the fetcher has not returned after any number of
    responses; it has asked for offset 0 each time and waited the cooldown
    after each answer. *)
Theorem fetcher_retries_without_bound self paper_id limit service :
  (forall i, throttles (service i)) ->
  forall n,
    let fetched :=
      get_forward_citations self paper_id limit (first_responses service n) in
    outcome fetched = None
    /\ requests_of (events fetched)
       = repeat (citations_request self paper_id limit 0) (S n)
    /\ sleeps_of (events fetched) = repeat cooldown n.
Proof.
  intros Hall n fetched; subst fetched. unfold get_forward_citations.
  rewrite <- (app_nil_r (first_responses service n)).
  rewrite loop_throttled_run by now apply first_responses_throttle.
  unfold first_responses. rewrite length_map, length_seq.
  cbn [after events outcome rest get_forward_citations_loop starved].
  split; [reflexivity|].
  cbn [app requests_of sleeps_of].
  rewrite requests_of_app, sleeps_of_app.
  assert (Hreq : forall k,
             requests_of
               (concat (repeat (throttled_iteration self paper_id limit 0) k))
             = repeat (citations_request self paper_id limit 0) k).
  { induction k as [|k IH]; [reflexivity|]. cbn. now rewrite IH. }
  assert (Hsleep : forall k,
             sleeps_of
               (concat (repeat (throttled_iteration self paper_id limit 0) k))
             = repeat cooldown k).
  { induction k as [|k IH]; [reflexivity|]. cbn. now rewrite IH. }
  rewrite Hreq, Hsleep. cbn [app requests_of sleeps_of].
  split; [|now rewrite app_nil_r].
  now rewrite <- repeat_cons.
Qed.

Lemma fetcher_retries_without_bound_witness :
  let fetched :=
    get_forward_citations (init None) (JStr "p") 1000
      (first_responses (fun _ => Http 429 (Ok JNull)) 3) in
  outcome fetched = None
  /\ sleeps_of (events fetched) = [cooldown; cooldown; cooldown].
Proof.
  destruct (fetcher_retries_without_bound (init None) (JStr "p") 1000
              (fun _ => Http 429 (Ok JNull))
              (fun _ => ex_intro _ (Ok JNull) eq_refl) 3)
    as (Hout & _ & Hsleep).
  split; [exact Hout|exact Hsleep].
Defined.

(** ** The loop over the DOIs *)

Lemma process_doi_index_irrelevant self frames i n i' n' doi world :
  let a := process_doi self frames i n doi world in
  let b := process_doi self frames i' n' doi world in
  outcome a = outcome b /\ rest a = rest b
  /\ requests_of (events a) = requests_of (events b)
  /\ sleeps_of (events a) = sleeps_of (events b).
Proof. now repeat split. Qed.

Lemma process_dois_loop_index_irrelevant self frames dois :
  forall i n i' n' acc world,
    let a := process_dois_loop self frames i n dois acc world in
    let b := process_dois_loop self frames i' n' dois acc world in
    outcome a = outcome b /\ rest a = rest b
    /\ requests_of (events a) = requests_of (events b)
    /\ sleeps_of (events a) = sleeps_of (events b).
Proof.
  induction dois as [|doi dois IH]; intros i n i' n' acc world;
    [now repeat split|].
  cbn [process_dois_loop]; cbv zeta.
  destruct (process_doi_index_irrelevant self frames i n i' n' doi world)
    as (Hout & Hrest & Hreq & Hsleep).
  rewrite !after_outcome, !after_rest, !requests_after, !sleeps_after.
  rewrite <- Hout, <- Hrest, <- Hreq, <- Hsleep.
  destruct (outcome (process_doi self frames i n doi world)) as [[rows|e]|];
    [|now repeat split..].
  destruct (IH (S i) n (S i') n' (acc ++ rows)
              (rest (process_doi self frames i n doi world)))
    as (Hout' & Hrest' & Hreq' & Hsleep').
  repeat split; congruence.
Qed.

(** The resolver on a paper it finds. *)
Lemma resolver_found self frames doi d world :
  sliceable (field "title" (JStr "Unknown") d) = true ->
  exists title60,
    get_paper_by_doi self frames doi (Http 200 (Ok (JDict d)) :: world)
    = after [Request (paper_request self (clean doi));
             Print (FoundPaper title60)]
            (returns (Some (JDict d)) world).
Proof.
  intros Htitle. cbn [get_paper_by_doi].
  change (200 =? 200)%Z with true. cbv iota.
  cbn [bind]. rewrite get_of_dict. cbn [bind].
  destruct (field "title" (JStr "Unknown") d); try discriminate;
    eexists; reflexivity.
Qed.

(** X12.  [process_dois] does not guard [paper['paperId']]: when the
    service finds a paper and its record has no [paperId], the run ends
    there with [KeyError], whatever rows the DOIs before it had produced
    and whatever DOIs are left; no citations are asked for. *)
Theorem missing_paper_id_aborts_the_run self frames i n doi dois acc d world :
  d <> [] -> Py.lookup "paperId" d = None ->
  sliceable (field "title" (JStr "Unknown") d) = true ->
  let run :=
    process_dois_loop self frames i n (doi :: dois) acc
      (Http 200 (Ok (JDict d)) :: world) in
  outcome run = Some (Err KeyError)
  /\ rest run = world
  /\ requests_of (events run) = [paper_request self (clean doi)]
  /\ outcome (process_dois self frames (doi :: dois)
                (Http 200 (Ok (JDict d)) :: world))
     = Some (Err KeyError).
Proof.
  intros Hd Hid Htitle.
  assert (Hloop : forall i n acc,
             let run := process_dois_loop self frames i n (doi :: dois) acc
                          (Http 200 (Ok (JDict d)) :: world) in
             outcome run = Some (Err KeyError) /\ rest run = world
             /\ requests_of (events run) = [paper_request self (clean doi)]).
  { clear i n acc. intros i n acc. cbn [process_dois_loop]; cbv zeta.
    unfold process_doi.
    destruct (resolver_found self frames doi d world Htitle) as (title60 & ->).
    cbn [after events outcome rest returns resolved].
    destruct d as [|kv d]; [congruence|].
    cbn [Py.truthy Py.getitem]. rewrite Hid. cbn [bind].
    now repeat split. }
  destruct (Hloop i n acc) as (Hout & Hrest & Hreq).
  repeat split; try assumption. apply Hloop.
Qed.

Lemma missing_paper_id_aborts_the_run_witness :
  outcome (process_dois (init None) usual_frames ["10.1/a"%string; "10.1/b"%string]
             [Http 200 (Ok (JDict [("title", JStr "T")]))])
  = Some (Err KeyError).
Proof.
  apply (missing_paper_id_aborts_the_run (init None) usual_frames 0 2 "10.1/a"
           ["10.1/b"%string] [] [("title", JStr "T")] []).
  - discriminate.
  - reflexivity.
  - reflexivity.
Defined.

(** X13.  A DOI that does not resolve (not found, a fault, an error status,
    an empty record) is skipped: the run goes on with the DOIs that follow
    as if this one had not been there, having spent one request and no
    delay on it. *)
Theorem unresolved_doi_is_skipped self frames doi dois r paper world :
  ~ throttles r ->
  outcome (get_paper_by_doi self frames doi [r]) = Some paper ->
  resolved paper = None ->
  let run := process_dois self frames (doi :: dois) (r :: world) in
  let others := process_dois self frames dois world in
  outcome run = outcome others
  /\ rest run = rest others
  /\ sleeps_of (events run) = sleeps_of (events others)
  /\ requests_of (events run)
     = paper_request self (clean doi) :: requests_of (events others).
Proof.
  intros Hr Hpaper Hresolved run others; subst run others.
  destruct (resolver_answered self frames doi r world Hr)
    as (Hev & Hout & Hrest & _ & Hreq & Hsleep).
  rewrite Hpaper in Hout.
  unfold process_dois. cbn [process_dois_loop List.length]; cbv zeta.
  destruct (process_dois_loop_index_irrelevant self frames dois 1 (S (List.length dois))
              0 (List.length dois) [] world)
    as (Hout' & Hrest' & Hreq' & Hsleep').
  unfold process_doi.
  rewrite Hout, Hresolved, Hrest.
  rewrite !after_outcome, !after_rest, !requests_after, !sleeps_after.
  cbn [after events outcome rest returns app requests_of sleeps_of].
  rewrite Hreq, Hsleep. cbn [app].
  repeat split; try assumption. now f_equal.
Qed.

Lemma unresolved_doi_is_skipped_witness :
  let paper := JDict [("paperId", JStr "p")] in
  let world := [Http 200 (Ok paper); page [bare_edge]] in
  outcome (process_dois (init None) usual_frames ["10.1/a"%string; "10.1/b"%string]
             (Http 404 (Ok JNull) :: world))
  = outcome (process_dois (init None) usual_frames ["10.1/b"%string] world).
Proof.
  apply (unresolved_doi_is_skipped (init None) usual_frames "10.1/a" ["10.1/b"%string]
           (Http 404 (Ok JNull)) None
           [Http 200 (Ok (JDict [("paperId", JStr "p")])); page [bare_edge]]).
  - intros (body & Heq). discriminate Heq.
  - reflexivity.
  - reflexivity.
Defined.

Lemma citation_data_origin doi paper paper_id title citation row :
  citation_data doi paper paper_id title citation = Ok row ->
  original_doi row = JStr doi /\ original_title row = title
  /\ original_paper_id row = paper_id.
Proof.
  unfold citation_data. intros Hrow. bind_inversion Hrow.
  injection Hrow as <-. now repeat split.
Qed.

Lemma map_py_origin doi paper paper_id title citations : forall rows,
  map_py (citation_data doi paper paper_id title) citations = Ok rows ->
  map original_doi rows = repeat (JStr doi) (List.length rows).
Proof.
  induction citations as [|c citations IH]; intros rows Hrows.
  - now injection Hrows as <-.
  - cbn [map_py] in Hrows. bind_inversion Hrows. injection Hrows as <-.
    cbn [map List.length repeat]. f_equal; [|now apply IH].
    now apply citation_data_origin in E.
Qed.

Lemma process_doi_origin self frames i n doi world rows :
  outcome (process_doi self frames i n doi world) = Some (Ok rows) ->
  map original_doi rows = repeat (JStr doi) (List.length rows).
Proof.
  unfold process_doi. cbn [after outcome].
  destruct (outcome (get_paper_by_doi self frames doi world)) as [paper|];
    [|discriminate].
  destruct (resolved paper) as [p|]; [|now intros [= <-]].
  destruct (paper_id <- Py.getitem p "paperId" ;;
            title <- Py.get p "title" (JStr "Unknown") ;;
            Ok (paper_id, title)) as [[paper_id title]|e]; [|discriminate].
  cbn [after outcome].
  destruct (outcome (get_forward_citations self paper_id 1000 _))
    as [citations|]; [|discriminate].
  cbn [after outcome].
  destruct (map_py (citation_data doi p paper_id title) citations)
    as [rows'|e] eqn:Hrows; [|discriminate].
  cbn [after outcome returns]. intros [= <-].
  now apply map_py_origin in Hrows.
Qed.

Lemma process_dois_loop_origin self frames n dois : forall i acc world rows,
  outcome (process_dois_loop self frames i n dois acc world) = Some (Ok rows) ->
  exists counts,
    List.length counts = List.length dois
    /\ map original_doi rows = map original_doi acc ++ grouped dois counts.
Proof.
  induction dois as [|doi dois IH]; intros i acc world rows.
  - cbn. intros [= <-]. exists []. now rewrite app_nil_r.
  - cbn [process_dois_loop after outcome].
    pose proof (process_doi_origin self frames i n doi world) as Hthis.
    destruct (outcome (process_doi self frames i n doi world)) as [[added|e]|];
      try discriminate.
    intros Hrows. apply IH in Hrows as (counts & Hlen & Hrows).
    exists (List.length added :: counts). split; [cbn; now f_equal|].
    rewrite Hrows, map_app, (Hthis added eq_refl), <- app_assoc.
    reflexivity.
Qed.

(** X14.  The rows of the data frame come grouped by DOI, in the order of
    the input: [original_doi] reads the first DOI (as it was given, prefix
    and all) some number of times, then the second, and so on, a DOI that
    gave no row being passed over. *)
Theorem rows_are_grouped_by_doi self frames dois world rows :
  outcome (process_dois self frames dois world) = Some (Ok rows) ->
  exists counts,
    List.length counts = List.length dois
    /\ map original_doi rows = grouped dois counts.
Proof.
  intros Hrows. now apply process_dois_loop_origin in Hrows.
Qed.

Lemma rows_are_grouped_by_doi_witness :
  let paper := JDict [("paperId", JStr "p")] in
  let world := [Http 404 (Ok JNull); Http 200 (Ok paper);
                page [bare_edge; bare_edge]] in
  exists rows counts,
    outcome (process_dois (init None) usual_frames ["doi:10.1/a"%string; "DOI:10.1/b"%string]
               world) = Some (Ok rows)
    /\ List.length counts = 2%nat
    /\ map original_doi rows = grouped ["doi:10.1/a"%string; "DOI:10.1/b"%string]
                                 counts
    /\ map original_doi rows = [JStr "DOI:10.1/b"; JStr "DOI:10.1/b"].
Proof.
  destruct (rows_are_grouped_by_doi (init None) usual_frames
              ["doi:10.1/a"%string; "DOI:10.1/b"%string]
              [Http 404 (Ok JNull);
               Http 200 (Ok (JDict [("paperId", JStr "p")]));
               page [bare_edge; bare_edge]]
              (let row := flattened "DOI:10.1/b" [("paperId", JStr "p")]
                            (JStr "p") (JStr "Unknown") [] in
               [row; row])
              eq_refl) as (counts & Hlen & Hgrouped).
  eexists. exists counts.
  split; [reflexivity|split; [exact Hlen|split; [exact Hgrouped|reflexivity]]].
Defined.

Lemma citation_data_not_a_record doi paper paper_id title citation :
  citing_paper_of citation = None ->
  citation_data doi paper paper_id title citation = Err AttributeError.
Proof.
  unfold citation_data.
  destruct citation as [| | | | | |d]; try reflexivity.
  cbn [citing_paper_of]. rewrite get_of_dict. unfold field.
  destruct (Py.lookup "citingPaper" d) as [v|]; [|discriminate].
  now destruct v.
Qed.

Lemma map_py_stops {A B} (f : A -> py B) good bad more e :
  (forall a, In a good -> exists b, f a = Ok b) ->
  f bad = Err e ->
  map_py f (good ++ bad :: more) = Err e.
Proof.
  intros Hgood Hbad. induction good as [|a good IH].
  - cbn. now rewrite Hbad.
  - cbn [app map_py]. destruct (Hgood a (or_introl eq_refl)) as [b ->].
    cbn [bind]. rewrite IH; [reflexivity|].
    intros a' Ha'. apply Hgood. now right.
Qed.

(** X15.  The flattening is not guarded either: when a paper resolves and a
    fetched edge is not a record with a citing-paper record (the edge is
    null, say, or its [citingPaper] is), the run ends with
    [AttributeError] and returns no rows at all, neither those of the
    well-typed edges before it nor those of the DOIs before this one. *)
Theorem malformed_edge_aborts_the_run
    self frames i n doi dois acc d paper_id r good bad more world :
  Py.lookup "paperId" d = Some paper_id ->
  sliceable (field "title" (JStr "Unknown") d) = true ->
  serves r (good ++ bad :: more) ->
  (List.length (good ++ bad :: more) < 1000)%nat ->
  Forall (fun c => exists cp, citing_paper_of c = Some cp
                              /\ citing_paper_ok cp = true) good ->
  citing_paper_of bad = None ->
  let run :=
    process_dois_loop self frames i n (doi :: dois) acc
      (Http 200 (Ok (JDict d)) :: r :: world) in
  outcome run = Some (Err AttributeError) /\ rest run = world.
Proof.
  intros Hid Htitle Hr Hlen Hgood Hbad run; subst run.
  cbn [process_dois_loop]; cbv zeta. unfold process_doi.
  destruct (resolver_found self frames doi d (r :: world) Htitle) as (title60 & ->).
  cbn [after events outcome rest returns resolved].
  assert (Htruthy : Py.truthy (JDict d) = true).
  { destruct d; [discriminate Hid|reflexivity]. }
  rewrite Htruthy. cbn [Py.getitem]. rewrite Hid. cbn [bind].
  rewrite get_of_dict. cbn [bind].
  unfold get_forward_citations.
  destruct (loop_last_page self paper_id 1000 0 [] r _ world Hr Hlen)
    as (es & -> & _ & _).
  cbn [after events outcome rest returns app].
  rewrite (map_py_stops _ good bad more AttributeError).
  - now split.
  - intros c Hc. rewrite Forall_forall in Hgood.
    destruct (Hgood c Hc) as (cp & Hcp & Hok).
    eexists. apply citation_data_flattens; eassumption.
  - now apply citation_data_not_a_record.
Qed.

Lemma malformed_edge_aborts_the_run_witness :
  outcome (process_dois (init None) usual_frames ["10.1/a"%string]
             [Http 200 (Ok (JDict [("paperId", JStr "p")]));
              page ([bare_edge] ++ JNull :: [bare_edge])])
  = Some (Err AttributeError).
Proof.
  apply (malformed_edge_aborts_the_run (init None) usual_frames 0 1 "10.1/a" [] []
           [("paperId", JStr "p")] (JStr "p")
           (page ([bare_edge] ++ JNull :: [bare_edge]))
           [bare_edge] JNull [bare_edge] []).
  - reflexivity.
  - reflexivity.
  - apply serves_page.
  - apply Nat.ltb_lt. reflexivity.
  - constructor; [|constructor]. exists []. now split.
  - reflexivity.
Defined.

(** ** Cleaning and cutting texts *)

Lemma lstrip_first s : is_blank (first_char (Py.lstrip s)) = false.
Proof.
  induction s as [|c s IH]; [reflexivity|].
  cbn [Py.lstrip]. destruct (Py.is_space c) eqn:Hc; [exact IH|].
  exact Hc.
Qed.

Lemma rstrip_first s :
  is_blank (first_char s) = false ->
  is_blank (first_char (Py.rstrip s)) = false.
Proof.
  destruct s as [|c s]; [reflexivity|].
  cbn [first_char String.get is_blank Py.rstrip]. intros Hc.
  destruct (Py.rstrip s); [rewrite Hc|]; exact Hc.
Qed.

Lemma rstrip_last s : is_blank (last_char (Py.rstrip s)) = false.
Proof.
  induction s as [|c s IH]; [reflexivity|].
  cbn [Py.rstrip]. destruct (Py.rstrip s) as [|d t].
  - destruct (Py.is_space c) eqn:Hc; [reflexivity|exact Hc].
  - exact IH.
Qed.

(** X16.  The identifier put in the URL never begins and never ends with a
    whitespace character, whatever surrounds the DOI or is left around it
    once the prefixes are removed. *)
Theorem clean_has_no_surrounding_whitespace doi :
  is_blank (first_char (clean doi)) = false
  /\ is_blank (last_char (clean doi)) = false.
Proof.
  unfold clean, Py.strip. split.
  - apply rstrip_first, lstrip_first.
  - apply rstrip_last.
Qed.

Lemma take_all n : forall s,
  (String.length s <= n)%nat -> Py.take n s = s.
Proof.
  induction n as [|n IH]; intros s Hlen.
  - destruct s; [reflexivity|cbn in Hlen; lia].
  - destruct s as [|c s]; [reflexivity|].
    cbn [Py.take]. f_equal. apply IH. cbn in Hlen. lia.
Qed.

(** X17.  The two cuts differ.  An abstract of at most 500 characters is
    kept whole and still gets the marker, so it is never stored as it is;
    the title of the summary gets the marker only when it is longer than 50
    characters and is cut, and is shown as it is otherwise. *)
Theorem marker_without_cut cp t :
  Py.lookup "abstract" cp = Some (JStr t) -> t <> ""%string ->
  ((String.length t <= 500)%nat ->
   citing_abstract_of (JDict cp) = Ok (JStr (t ++ "...")%string)
   /\ citing_abstract_of (JDict cp) <> Ok (JStr t))
  /\ ((String.length t <= 50)%nat -> summary_title (JStr t) = Ok (JStr t))
  /\ ((50 < String.length t)%nat ->
      summary_title (JStr t) = Ok (JStr (Py.take 50 t ++ "...")%string)
      /\ String.length (Py.take 50 t ++ "...")%string = 53%nat).
Proof.
  intros Ht Hne.
  assert (Hcut : citing_abstract_of (JDict cp)
                 = Ok (JStr (Py.take 500 t ++ "...")%string)).
  { unfold citing_abstract_of. rewrite !get_of_dict. unfold field.
    rewrite Ht. cbn [bind Py.truthy].
    destruct t as [|c t]; [congruence|reflexivity]. }
  split; [|split].
  - intros Hlen. rewrite Hcut, take_all by assumption.
    split; [reflexivity|]. intros Heq.
    apply (f_equal (fun r => match r with
                             | Ok (JStr s) => String.length s
                             | _ => 0%nat
                             end)) in Heq.
    cbv beta iota in Heq.
    rewrite length_append in Heq. cbn [String.length] in Heq. lia.
  - intros Hlen. unfold summary_title. cbn [Py.len bind].
    destruct (Nat.ltb_spec 50 (String.length t)); [lia|reflexivity].
  - intros Hlen. unfold summary_title. cbn [Py.len bind].
    destruct (Nat.ltb_spec 50 (String.length t)); [|lia].
    split; [reflexivity|].
    rewrite length_append, length_take. cbn [String.length]. lia.
Qed.

Lemma marker_without_cut_witness :
  citing_abstract_of (JDict [("abstract", JStr "Short.")])
  = Ok (JStr "Short....")
  /\ summary_title (JStr "Short.") = Ok (JStr "Short.").
Proof.
  destruct (marker_without_cut [("abstract", JStr "Short.")] "Short."
              eq_refl) as (Habstract & Htitle & _).
  - discriminate.
  - split; [apply Habstract|apply Htitle]; apply Nat.leb_le; reflexivity.
Defined.
